(** * SymptoGuide backend: triage evaluator, distance calculator, hospital finder

    A shallow embedding of [backend/app.py].  Python values are modelled as
    follows.
    - [str] is a string of ASCII characters ([string]): [str.lower] and
      [str.strip] are written for the ASCII letters and blanks, and text
      outside ASCII is not modelled.
    - [float] is an IEEE-754 binary64 number ([PrimFloat.float]): [+ - * /],
      [sqrt] and the comparisons are the primitive, correctly rounded ones, so
      NaN, the infinities and signed zeros behave as they do in CPython.
    - The C library functions behind [math.sin], [math.cos], [math.asin] and
      [float.__pow__] are parameters ([Libm]) constrained only by the special
      values that C99 Annex F fixes and by the range of the arc sine;
      CPython's error wrappers around them are written out.
    - [float(s)], [int(s)], [round(x, 1)] and [format(x, ".1f")] are
      parameters ([Builtins]).
    - An exception is a value of [exn]; code that can raise lives in [exc].
    - The request reaches the handler as its query parameters, the
      environment as [GEOAPIFY_KEY], and the places provider as a function
      from the outbound request to its reply; the handler returns its
      response or exception together with the outbound requests it made.
    - The JSON sent by the places provider is typed: a feature carries optional
      string properties, a list of category strings and a coordinate list whose
      items are arbitrary scalars.  A body of another shape, on which the
      handler would raise after its [try] block, is not modelled. *)

From Stdlib Require Import Floats ZArith Ascii String.
From stdpp Require Import gmap strings list sorting pretty.

Open Scope string_scope.
Open Scope list_scope.
Open Scope nat_scope.

(** ** Strings *)

Module PyStr.

(** [c.lower()] for one ASCII character. *)
Definition lower_ascii (c : ascii) : ascii :=
  let n := N_of_ascii c in
  if ((65 <=? n) && (n <=? 90))%N then ascii_of_N (n + 32) else c.

(** [s.lower()] *)
Fixpoint lower (s : string) : string :=
  match s with
  | EmptyString => EmptyString
  | String c s' => String (lower_ascii c) (lower s')
  end.

(** [sub in s] on strings: substring test. *)
Fixpoint contains (sub s : string) : bool :=
  if String.prefix sub s then true
  else match s with
       | EmptyString => false
       | String _ s' => contains sub s'
       end.

(** Characters removed by [str.strip()] (the ASCII ones for which
    [str.isspace] holds). *)
Definition is_space (c : ascii) : bool :=
  let n := N_of_ascii c in
  (((9 <=? n) && (n <=? 13)) || ((28 <=? n) && (n <=? 32)))%N.

Fixpoint lstrip (s : string) : string :=
  match s with
  | EmptyString => EmptyString
  | String c s' => if is_space c then lstrip s' else s
  end.

(** [s.strip()] *)
Definition strip (s : string) : string :=
  String.rev (lstrip (String.rev (lstrip s))).

(** Truthiness of a string: non-empty. *)
Definition truthy (s : string) : bool :=
  match s with EmptyString => false | _ => true end.

(** [any(p(c) for c in l)] *)
Definition any {A} (p : A → bool) (l : list A) : bool := existsb p l.

End PyStr.

(** ** Exceptions *)

Inductive exn : Type :=
  | TypeError
  | ValueError
  | OverflowError
  | KeyboardInterrupt.

(** [isinstance(e, Exception)]: everything but the [BaseException]-only
    classes. *)
Definition is_Exception (e : exn) : bool :=
  match e with
  | KeyboardInterrupt => false
  | _ => true
  end.

Inductive exc (A : Type) : Type :=
  | Ok (a : A)
  | Raise (e : exn).
Arguments Ok {A} a.
Arguments Raise {A} e.

Global Instance exc_ret : MRet exc := λ A a, Ok a.
Global Instance exc_bind : MBind exc := λ A B k m,
  match m with
  | Ok a => k a
  | Raise e => Raise e
  end.

(** [try: body  except Exception: handler] *)
Definition try_except_Exception {A} (body : exc A) (handler : exc A) : exc A :=
  match body with
  | Ok a => Ok a
  | Raise e => if is_Exception e then handler else Raise e
  end.

(** ** Python scalars and numeric conversions *)

Inductive pyval : Type :=
  | VNone
  | VBool (b : bool)
  | VInt (z : Z)
  | VFloat (f : float)
  | VStr (s : string).

(** Conversion of a Python [int] to a C double: round to nearest even,
    [OverflowError] when the magnitude is out of range. *)
Definition float_of_Z (z : Z) : exc float :=
  let f := SF2Prim (binary_normalize prec emax z 0 false) in
  if is_infinity f then Raise OverflowError else Ok f.

(** Argument conversion of the [math] functions ([PyFloat_AsDouble]). *)
Definition as_double (v : pyval) : exc float :=
  match v with
  | VFloat f => Ok f
  | VInt z => float_of_Z z
  | VBool b => Ok (if b then 1 else 0)%float
  | VNone | VStr _ => Raise TypeError
  end.

(** ** The [math] module *)

(** The platform C library.  The laws are the special values that C99
    Annex F prescribes (F.9.1.2 asin, F.9.1.5 cos, F.9.1.6 sin, and NaN
    arguments giving NaN results), and the range of the arc sine, which
    lies within [-pi/2, pi/2] whenever it is a number. *)
Class Libm : Type := {
  c_sin : float → float;
  c_cos : float → float;
  c_asin : float → float;
  c_pow : float → float → float;
  c_sin_nan : c_sin nan = nan;
  c_cos_nan : c_cos nan = nan;
  c_asin_nan : c_asin nan = nan;
  c_sin_zero : c_sin 0 = 0%float;
  c_cos_zero : c_cos 0 = 1%float;
  c_asin_zero : c_asin 0 = 0%float;
  c_sin_inf : c_sin infinity = nan ∧ c_sin neg_infinity = nan;
  c_cos_inf : c_cos infinity = nan ∧ c_cos neg_infinity = nan;
  c_asin_range : ∀ x, c_asin x = nan ∨ (abs (c_asin x) <=? 2)%float = true;
}.

Module PyMath.
Section Math.
Context `{L : Libm}.

(** [math_1] of [mathmodule.c], the wrapper shared by [sin], [cos], [asin]
    and [sqrt] (none of them may overflow): a NaN result from a non-NaN
    argument, or an infinite result from a finite argument, is a
    [ValueError].  (The wrapper also looks at [errno], which the C library
    leaves untouched when it returns a finite value or passes a NaN
    through.) *)
Definition math_1 (func : float → float) (x : float) : exc float :=
  let r := func x in
  if is_nan r && negb (is_nan x) then Raise ValueError
  else if is_infinity r && is_finite x then Raise ValueError
  else Ok r.

Definition sin (x : float) : exc float := math_1 c_sin x.
Definition cos (x : float) : exc float := math_1 c_cos x.
Definition asin (x : float) : exc float := math_1 c_asin x.
Definition sqrt (x : float) : exc float := math_1 PrimFloat.sqrt x.

(** [Py_MATH_PI / 180.0] *)
Definition degToRad : float := (0x1.921fb54442d18p+1 / 180)%float.

(** [math.radians(x)] *)
Definition radians (v : pyval) : exc float :=
  x ← as_double v; mret (x * degToRad)%float.

(** [x ** 2] on a float ([float_pow] with exponent 2). *)
Definition pow2 (iv : float) : exc float :=
  if is_nan iv then Ok iv
  else if is_infinity iv then Ok infinity
  else if (iv =? 0)%float then Ok 0%float
  else
    let iv := abs iv in
    if (iv =? 1)%float then Ok 1%float
    else
      let ix := c_pow iv 2 in
      if is_infinity ix then Raise OverflowError else Ok ix.

End Math.
End PyMath.

(** ** Distance calculator *)

Section Distance.
Context `{L : Libm}.

(** The body of the [try] block of [haversine_distance_km]. *)
Definition haversine_body (lat1 lon1 lat2 lon2 : pyval) : exc float :=
  lat1 ← PyMath.radians lat1;
  lon1 ← PyMath.radians lon1;
  lat2 ← PyMath.radians lat2;
  lon2 ← PyMath.radians lon2;
  let dlon := (lon2 - lon1)%float in
  let dlat := (lat2 - lat1)%float in
  s1 ← PyMath.sin (dlat / 2)%float;
  p1 ← PyMath.pow2 s1;
  c1 ← PyMath.cos lat1;
  c2 ← PyMath.cos lat2;
  s2 ← PyMath.sin (dlon / 2)%float;
  p2 ← PyMath.pow2 s2;
  let a := (p1 + c1 * c2 * p2)%float in
  r ← PyMath.sqrt a;
  t ← PyMath.asin r;
  let c := (2 * t)%float in
  let R := 6371%float in
  mret (R * c)%float.

(** [haversine_distance_km]: [Some d] is the float [d], [None] is Python's
    [None]. *)
Definition haversine_distance_km (lat1 lon1 lat2 lon2 : pyval)
  : exc (option float) :=
  try_except_Exception
    (d ← haversine_body lat1 lon1 lat2 lon2; mret (Some d))
    (Ok None).

End Distance.

(** ** Triage evaluator: [POST /api/assess] *)

Module Triage.

(** The request body after the [data.get(..., default)] calls. *)
Record symptom_report : Type := {
  symptoms : list string;
  severity : string;
  duration : string;
}.

(** The JSON object returned by [assess]. *)
Record assessment : Type := {
  concern_level : string;
  suggestions : list string;
  recommended_departments : list string;
}.

Definition red_flag_symptoms : gset string :=
  {[ "chest pain"; "difficulty breathing"; "shortness of breath";
     "loss of consciousness"; "severe bleeding"; "sudden weakness" ]}.

(** [{s.lower() for s in symptoms}] *)
Definition lower_symptoms (symptoms : list string) : gset string :=
  list_to_set (PyStr.lower <$> symptoms).

(** [k in lower_symptoms] *)
Definition mem (k : string) (s : gset string) : bool := bool_decide (k ∈ s).

(** [any(k in lower_symptoms for k in ks)] *)
Definition any_in (ks : list string) (s : gset string) : bool :=
  PyStr.any (λ k, mem k s) ks.

(** The four guards of the concern chain, in source order. *)
Definition has_red_flag (r : symptom_report) : bool :=
  bool_decide (lower_symptoms (symptoms r) ∩ red_flag_symptoms ≠ ∅).

Definition is_severe (r : symptom_report) : bool :=
  String.eqb (severity r) "severe".

Definition moderate_or_lasting (r : symptom_report) : bool :=
  String.eqb (severity r) "moderate"
  || mem (duration r) ({[ "week"; "weeks"; "month"; "chronic" ]} : gset string).

Definition many_symptoms (r : symptom_report) : bool :=
  bool_decide (3 ≤ length (symptoms r)).

Definition concern (r : symptom_report) : string :=
  if has_red_flag r then "high"
  else if is_severe r then "high"
  else if moderate_or_lasting r then "moderate"
  else if many_symptoms r then "moderate"
  else "low".

(** The keyword lists of the department chain, in source order. *)
Definition gastro_keywords : list string :=
  ["stomach pain"; "abdominal pain"; "nausea"; "vomiting"; "diarrhea";
   "bloating"].
Definition cardio_keywords : list string :=
  ["chest pain"; "palpitations"; "heart"].
Definition pulmo_keywords : list string :=
  ["shortness of breath"; "breathlessness"; "cough"; "wheezing"].
Definition neuro_keywords : list string :=
  ["headache"; "migraine"; "dizziness"; "numbness"; "seizure"].
Definition derma_keywords : list string :=
  ["rash"; "itching"; "skin"; "hives"].

Definition dept (r : symptom_report) : string :=
  let ls := lower_symptoms (symptoms r) in
  if any_in gastro_keywords ls then "Gastroenterology"
  else if any_in cardio_keywords ls then "Cardiology"
  else if any_in pulmo_keywords ls then "Pulmonology"
  else if any_in neuro_keywords ls then "Neurology"
  else if any_in derma_keywords ls then "Dermatology"
  else "Primary Care".

Definition recommend (concern dept : string) : list string :=
  let l0 : list string := [] in
  let l1 := if String.eqb concern "high" then l0 ++ ["Emergency"] else l0 in
  let l2 := if negb (String.eqb dept "Primary Care") then l1 ++ [dept] else l1 in
  match l2 with
  | [] => if String.eqb concern "moderate" then ["General Medicine"]
          else ["Primary Care"]
  | _ => l2
  end.

Definition assess (r : symptom_report) : assessment :=
  {| concern_level := concern r;
     suggestions :=
       ["This is a preliminary assessment and not a diagnosis.";
        "If concern is high, seek emergency care."];
     recommended_departments := recommend (concern r) (dept r) |}.

End Triage.

(** ** Builtins whose decimal conversions are not modelled

    [float(s)] and [int(s)] on a string ([None]: the call raises
    [ValueError]), [round(x, 1)] and [format(x, ".1f")]. *)
Class Builtins : Type := {
  float_of_str : string → option float;
  int_of_str : string → option Z;
  round1 : float → float;
  format_1f : float → string;
}.

(** [float(v)] *)
Definition py_float `{B : Builtins} (v : pyval) : exc float :=
  match v with
  | VFloat f => Ok f
  | VInt z => float_of_Z z
  | VBool b => Ok (if b then 1 else 0)%float
  | VStr s => match float_of_str s with
              | Some f => Ok f
              | None => Raise ValueError
              end
  | VNone => Raise TypeError
  end.

(** [int(x)] on a float: truncation toward zero; NaN and the infinities
    raise. *)
Definition int_of_float (x : float) : exc Z :=
  match Prim2SF x with
  | S754_nan => Raise ValueError
  | S754_infinity _ => Raise OverflowError
  | S754_zero _ => Ok 0%Z
  | S754_finite s m e =>
      let v := if (0 <=? e)%Z then Z.shiftl (Zpos m) e
               else Z.shiftr (Zpos m) (- e) in
      Ok (if s then - v else v)%Z
  end.

(** ** [list.sort(key=...)]

    Python's sort is stable and compares keys with [<] only.  It is
    modelled by insertion from left to right, each item moving left past
    the items it is strictly less than (the linear form of CPython's binary
    insertion).  The sorted prefix is kept in reverse.

    Two facts proved below tie the model to CPython's merge sort.  When [<]
    orders the keys consistently, a stable sort has only one possible
    result ([list_sort_unique]).  When no key is less than the key before
    it, CPython finds a single ascending run and moves nothing, and so does
    the model ([list_sort_run]); this is the case used when the keys hold
    NaN.  For NaN keys in a list that has a descent, CPython's result
    depends on its runs and merges, which the model does not follow; what
    is proved of the filter and the fallback does not depend on that
    order. *)
Module PySort.
Section Sort.
Context {A K : Type} (key : A → K) (lt : K → K → bool).

Fixpoint insert_back (x : A) (rpre : list A) : list A :=
  match rpre with
  | [] => [x]
  | y :: r => if lt (key x) (key y) then y :: insert_back x r else x :: rpre
  end.

Definition sort_rev (l : list A) (acc : list A) : list A :=
  fold_left (λ acc x, insert_back x acc) l acc.

Definition list_sort (l : list A) : list A := reverse (sort_rev l []).

End Sort.
End PySort.

(** ** Hospital finder: [GET /api/nearby-hospitals] *)

(** A hospital record, the dict appended to [hospitals_all]. *)
Module Facility.
Record t : Type := mk {
  id : string;
  name : string;
  address : string;
  lat : pyval;
  lng : pyval;
  emergency : bool;
  phone : string;
  specialties : list string;
  has_specialties : bool;
  rating : float;
  distance_km : option float;
}.
End Facility.

(** An item of the ["hospitals"] list of the response. *)
Module FacilityView.
Record t : Type := mk {
  id : string;
  name : string;
  address : string;
  lat : pyval;
  lng : pyval;
  emergency : bool;
  phone : string;
  specialties : list string;
  has_specialties : bool;
  rating : float;
  distance : string;
}.
End FacilityView.

(** The [properties] object of a GeoJSON feature.  A key that is absent
    or null is [None], which the handler's [or] and [get] treat alike, except
    for [place_id], which is read with a default: there [None] is an absent
    key and [Some None] a null. *)
Record properties : Type := {
  prop_name : option string;
  prop_formatted : option string;
  prop_address_line1 : option string;
  prop_categories : option (list string);
  prop_opening_hours : option string;
  prop_place_id : option (option string);
  prop_contact_phone : option string;
  prop_rate : option float;
}.

Definition no_properties : properties :=
  {| prop_name := None; prop_formatted := None; prop_address_line1 := None;
     prop_categories := None; prop_opening_hours := None;
     prop_place_id := None; prop_contact_phone := None; prop_rate := None |}.

Record feature : Type := {
  feat_properties : option properties;
  (** [geometry.coordinates]; the outer option is a missing [geometry]. *)
  feat_geometry : option (option (list pyval));
}.

(** [params] of the outbound request; the [filter] string
    [circle:{lng},{lat},{radius_m}] is kept as its three components. *)
Record places_request : Type := {
  req_categories : string;
  req_circle : float * float * Z;
  req_limit : Z;
  req_apiKey : string;
}.

(** What the [try] block around [requests.get] produces: the decoded body,
    or an exception whose text is [details].  The body is taken to be a
    GeoJSON feature collection: an object whose ["features"], when the key
    is there ([None]: it is not), is a list of feature objects. *)
Inductive provider_reply : Type :=
  | ProviderData (features : option (list feature))
  | ProviderError (details : string).

Record query_args : Type := {
  arg_lat : option string;
  arg_lng : option string;
  arg_department : option string;
  arg_radius_m : option string;
}.

Inductive body : Type :=
  | ErrorBody (error : string) (details : option string)
  | HospitalsBody (hospitals : list FacilityView.t) (fallback_used : bool).

Inductive outcome : Type :=
  | Responded (status : Z) (b : body)
  | Raised (e : exn).

(** The result of handling one request, with the outbound requests made. *)
Record run : Type := {
  result : outcome;
  outbound : list places_request;
}.

Module HospitalFinder.
Section Handler.
Context `{L : Libm} `{B : Builtins}.

(** [o or d] for an optional string. *)
Definition or_str (o : option string) (d : string) : string :=
  match o with
  | Some s => if PyStr.truthy s then s else d
  | None => d
  end.

Definition is_none (v : pyval) : bool :=
  match v with VNone => true | _ => false end.

(** Truthiness of a float: non-zero (NaN is truthy). *)
Definition float_truthy (x : float) : bool := negb (x =? 0)%float.

(** [float(request.args.get(k))] *)
Definition parse_coord (o : option string) : exc float :=
  match o with
  | None => Raise TypeError
  | Some s => match float_of_str s with
              | Some f => Ok f
              | None => Raise ValueError
              end
  end.

(** [int(request.args.get("radius_m") or 20000)] *)
Definition parse_radius (o : option string) : exc Z :=
  match o with
  | Some s =>
      if PyStr.truthy s
      then match int_of_str s with
           | Some z => Ok z
           | None => Raise ValueError
           end
      else Ok 20000%Z
  | None => Ok 20000%Z
  end.

Definition dept_map : gmap string string :=
  list_to_map
    [("cardiology", "healthcare"); ("neurology", "healthcare");
     ("dermatology", "healthcare"); ("orthopedics", "healthcare");
     ("gastroenterology", "healthcare"); ("pulmonology", "healthcare");
     ("ent", "healthcare"); ("dental", "healthcare.dentist");
     ("dentistry", "healthcare.dentist"); ("emergency", "healthcare.hospital");
     ("general medicine", "healthcare"); ("primary care", "healthcare")].

Definition geo_category (department : string) : string :=
  let dept_key := PyStr.lower (PyStr.strip department) in
  match dept_map !! dept_key with
  | Some c => c
  | None => "healthcare"
  end.

(** [coords = geom.get("coordinates") or [None, None]] *)
Definition coords_of (feat : feature) : list pyval :=
  match feat_geometry feat with
  | Some (Some (c :: cs)) => c :: cs
  | _ => [VNone; VNone]
  end.

(** [(coords[0], coords[1]) if len(coords) >= 2 else (None, None)] *)
Definition lng_lat (coords : list pyval) : pyval * pyval :=
  match coords with
  | a :: b :: _ => (a, b)
  | _ => (VNone, VNone)
  end.

(** Specialties inferred from the lower-cased categories and name, in rule
    order. *)
Definition infer_specialties (cats_lower : list string) (name_lower : string)
  : list string :=
  let cat p := PyStr.any p cats_lower in
  let nm k := PyStr.contains k name_lower in
  let rule (c : bool) (s : string) : list string := if c then [s] else [] in
  rule (cat (λ c, PyStr.contains "cardio" c || PyStr.contains "heart" c)
        || nm "cardio" || nm "heart") "Cardiology"
  ++ rule (cat (PyStr.contains "gastro") || nm "gastro") "Gastroenterology"
  ++ rule (cat (PyStr.contains "neuro") || nm "neuro") "Neurology"
  ++ rule (cat (PyStr.contains "dermatology") || nm "derma" || nm "skin")
       "Dermatology"
  ++ rule (nm "ent" || nm "ear nose throat") "ENT"
  ++ rule (cat (PyStr.contains "ortho") || nm "ortho" || nm "bone")
       "Orthopedics"
  ++ rule (nm "dent" || nm "dental" || nm "dentist") "Dental"
  ++ rule (nm "surgical") "Surgery".

Definition infer_emergency (name_lower : string) (opening_hours : option string)
  : bool :=
  PyStr.contains "emergency" name_lower
  || PyStr.contains "er" name_lower
  || PyStr.contains "24/7" (or_str opening_hours "").

(** [str(props.get("place_id", i))] *)
Definition record_id (i : nat) (place_id : option (option string)) : string :=
  match place_id with
  | None => pretty i
  | Some None => "None"
  | Some (Some s) => s
  end.

(** The [distance_km] of a feature. *)
Definition distance_of (lat lng : float) (lat_res lng_res : pyval)
  : exc (option float) :=
  if negb (is_none lat_res) && negb (is_none lng_res)
  then
    try_except_Exception
      (a ← py_float lat_res;
       b ← py_float lng_res;
       haversine_distance_km (VFloat lat) (VFloat lng) (VFloat a) (VFloat b))
      (Ok None)
  else Ok None.

(** One iteration of the loop over [enumerate(features)]; [None] is the
    [continue] taken for a feature without a name. *)
Definition derive_record (lat lng : float) (i : nat) (feat : feature)
  : exc (option Facility.t) :=
  let props := default no_properties (feat_properties feat) in
  let '(lng_res, lat_res) := lng_lat (coords_of feat) in
  let name := or_str (prop_name props) "" in
  if negb (PyStr.truthy name) then Ok None
  else
    let address :=
      or_str (prop_formatted props)
        (or_str (prop_address_line1 props) "Address not available") in
    let categories := default [] (prop_categories props) in
    let cats_lower := PyStr.lower <$> categories in
    let name_lower := PyStr.lower name in
    let inferred_specialties := infer_specialties cats_lower name_lower in
    let emergency := infer_emergency name_lower (prop_opening_hours props) in
    distance_km ← distance_of lat lng lat_res lng_res;
    mret (Some
      {| Facility.id := record_id i (prop_place_id props);
         Facility.name := name;
         Facility.address := address;
         Facility.lat := lat_res;
         Facility.lng := lng_res;
         Facility.emergency := emergency;
         Facility.phone := or_str (prop_contact_phone props) "Not available";
         Facility.specialties := inferred_specialties;
         Facility.has_specialties :=
           match inferred_specialties with [] => false | _ => true end;
         Facility.rating :=
           match prop_rate props with
           | Some r => if float_truthy r then r else 4.5%float
           | None => 4.5%float
           end;
         Facility.distance_km := distance_km |}).

(** The loop building [hospitals_all]. *)
Fixpoint derive_records (lat lng : float) (i : nat) (features : list feature)
  : exc (list Facility.t) :=
  match features with
  | [] => Ok []
  | feat :: rest =>
      r ← derive_record lat lng i feat;
      rs ← derive_records lat lng (S i) rest;
      mret (match r with Some h => h :: rs | None => rs end)
  end.

(** The sort key [(d is None, d if d is not None else 99999)]; the integer
    [99999] is the float of the same value, which compares alike. *)
Definition sort_key (h : Facility.t) : bool * float :=
  match Facility.distance_km h with
  | None => (true, 99999%float)
  | Some d => (false, d)
  end.

(** [k1 < k2] on such tuples: the first components that are not [==]
    decide.  (The key floats of two records are distinct objects, so the
    identity shortcut of [==] plays no part.) *)
Definition tuple_lt (k1 k2 : bool * float) : bool :=
  if negb (Bool.eqb k1.1 k2.1) then negb k1.1 && k2.1
  else if negb (k1.2 =? k2.2)%float then (k1.2 <? k2.2)%float
  else false.

Definition sort_by_distance (hospitals_all : list Facility.t)
  : list Facility.t :=
  PySort.list_sort sort_key tuple_lt hospitals_all.

Definition synonyms : list (string * list string) :=
  [("dental", ["dental"; "dentist"]);
   ("orthopedics", ["ortho"; "orthopedics"; "bone"]);
   ("cardiology", ["cardio"; "cardiology"; "heart"]);
   ("neurology", ["neuro"; "neurology"]);
   ("dermatology", ["derma"; "dermatology"; "skin"]);
   ("gastroenterology", ["gastro"; "gastroenterology"]);
   ("ent", ["ent"; "ear"; "nose"; "throat"]);
   ("primary care", ["general"; "primary"; "family"]);
   ("general medicine", ["general"; "medicine"; "gp"; "general medicine"])].

Definition matches_department (h : Facility.t) (dept : string) : bool :=
  if negb (PyStr.truthy dept) then true
  else
    let dept_norm := PyStr.lower dept in
    if String.eqb dept_norm "emergency"
    then Facility.emergency h
         || PyStr.any (λ s, PyStr.contains "emergency" (PyStr.lower s))
              (Facility.specialties h)
    else
      let specialties_lower := PyStr.lower <$> Facility.specialties h in
      if PyStr.any (PyStr.contains dept_norm) specialties_lower then true
      else
        PyStr.any
          (λ kv : string * list string,
             String.eqb dept_norm kv.1
             && (let name_addr_lower :=
                   PyStr.lower
                     ((Facility.name h ++ " " ++ Facility.address h)%string) in
                 PyStr.any (λ v, PyStr.contains v name_addr_lower) kv.2))
          synonyms.

(** The department filter and the fallback: the records to return and
    [fallback_used]. *)
Definition select (department : string) (hospitals_all : list Facility.t)
  : list Facility.t * bool :=
  let filtered :=
    filter (λ h, matches_department h department = true) hospitals_all in
  if PyStr.truthy department && bool_decide (length filtered = 0)
  then (take 15 hospitals_all, true)
  else (filtered, false).

Definition format_distance (h : Facility.t) : exc string :=
  match Facility.distance_km h with
  | None => Ok ""
  | Some dk =>
      if (dk <? 1)%float
      then n ← int_of_float (dk * 1000)%float; mret (pretty n ++ " m")%string
      else Ok (format_1f dk ++ " km")%string
  end.

Definition view (h : Facility.t) : exc FacilityView.t :=
  distance ← format_distance h;
  mret
    {| FacilityView.id := Facility.id h;
       FacilityView.name := Facility.name h;
       FacilityView.address := Facility.address h;
       FacilityView.lat := Facility.lat h;
       FacilityView.lng := Facility.lng h;
       FacilityView.emergency := Facility.emergency h;
       FacilityView.phone := Facility.phone h;
       FacilityView.specialties := Facility.specialties h;
       FacilityView.has_specialties := Facility.has_specialties h;
       FacilityView.rating :=
         round1 (if float_truthy (Facility.rating h) then Facility.rating h
                 else 4.5%float);
       FacilityView.distance := distance |}.

(** The loop building [results]. *)
Fixpoint render (filtered : list Facility.t) : exc (list FacilityView.t) :=
  match filtered with
  | [] => Ok []
  | h :: rest => v ← view h; vs ← render rest; mret (v :: vs)
  end.

(** The last statement: [jsonify({"hospitals": results, ...})]. *)
Definition respond (filtered : list Facility.t) (fallback_used : bool)
  : outcome :=
  match render filtered with
  | Ok results => Responded 200 (HospitalsBody results fallback_used)
  | Raise e => Raised e
  end.

(** [hospitals_all] after the sort. *)
Definition candidates (lat lng : float) (features : list feature)
  : exc (list Facility.t) :=
  hospitals_all ← derive_records lat lng 0 features;
  mret (sort_by_distance hospitals_all).

Definition places_params (key department : string) (lat lng : float)
  (radius_m : Z) : places_request :=
  {| req_categories := geo_category department;
     req_circle := (lng, lat, radius_m);
     req_limit := 100;
     req_apiKey := key |}.

(** [department] as the handler uses it: stripped, then lower-cased. *)
Definition requested_department (args : query_args) : string :=
  let department_raw := PyStr.strip (or_str (arg_department args) "") in
  PyStr.lower department_raw.

(** How far the first half of the handler gets: it is over (an error
    response or an uncaught exception), or the provider has answered and
    [features] is bound. *)
Inductive fetched : Type :=
  | Finished (r : run)
  | Features (lat lng : float) (department : string)
      (params : places_request) (features : list feature).

(** The handler down to [features = data.get("features", [])].
    [GEOAPIFY_KEY] is the environment value and [provider] the places
    service. *)
Definition fetch (GEOAPIFY_KEY : option string)
  (provider : places_request → provider_reply) (args : query_args)
  : fetched :=
  match lat ← parse_coord (arg_lat args);
        lng ← parse_coord (arg_lng args);
        mret (lat, lng) with
  | Raise TypeError | Raise ValueError =>
      Finished
        {| result :=
             Responded 400 (ErrorBody "lat and lng query params required" None);
           outbound := [] |}
  | Raise e => Finished {| result := Raised e; outbound := [] |}
  | Ok (lat, lng) =>
      let department := requested_department args in
      match parse_radius (arg_radius_m args) with
      | Raise e => Finished {| result := Raised e; outbound := [] |}
      | Ok radius_m =>
          let key := or_str GEOAPIFY_KEY "" in
          if negb (PyStr.truthy key)
          then Finished
                 {| result :=
                      Responded 500
                        (ErrorBody "Geoapify API key not configured" None);
                    outbound := [] |}
          else
            let params := places_params key department lat lng radius_m in
            match provider params with
            | ProviderError details =>
                Finished
                  {| result :=
                       Responded 500
                         (ErrorBody "Failed to fetch hospitals from Geoapify"
                            (Some details));
                     outbound := [params] |}
            | ProviderData features =>
                Features lat lng department params (default [] features)
            end
      end
  end.

(** The whole handler. *)
Definition nearby_hospitals (GEOAPIFY_KEY : option string)
  (provider : places_request → provider_reply) (args : query_args) : run :=
  match fetch GEOAPIFY_KEY provider args with
  | Finished r => r
  | Features lat lng department params features =>
      match candidates lat lng features with
      | Raise e => {| result := Raised e; outbound := [params] |}
      | Ok hospitals_all =>
          let '(filtered, fallback_used) := select department hospitals_all in
          {| result := respond filtered fallback_used;
             outbound := [params] |}
      end
  end.

End Handler.
End HospitalFinder.

(** ** A concrete runtime for running the model

    [Reference.libm] computes sine, cosine and arc sine by short power
    series (adequate near zero) and obeys the laws of [Libm];
    [Reference.builtins] reads plain decimal literals, [nan] and [inf], and
    prints one decimal exactly.  They serve to evaluate the model on
    concrete requests. *)
Module Reference.

Definition x2 (x : float) : float := (x * x)%float.

Definition ref_sin (x : float) : float :=
  if is_infinity x then nan
  else (x * (1 - x2 x / 6 * (1 - x2 x / 20 * (1 - x2 x / 42 * (1 - x2 x / 72)))))%float.

Definition ref_cos (x : float) : float :=
  if is_infinity x then nan
  else (1 - x2 x / 2 * (1 - x2 x / 12 * (1 - x2 x / 30 * (1 - x2 x / 56))))%float.

Definition ref_asin (x : float) : float :=
  if (abs x <=? 1)%float
  then
    let r := (x * (1 + x2 x * (1 / 6 + x2 x * (3 / 40 + x2 x * (15 / 336
                 + x2 x * (105 / 3456))))))%float in
    if (abs r <=? 2)%float then r else nan
  else nan.

Lemma ref_asin_range x :
  ref_asin x = nan ∨ (abs (ref_asin x) <=? 2)%float = true.
Proof. unfold ref_asin. repeat case_match; auto. Qed.

Definition ref_pow (x y : float) : float :=
  if (y =? 2)%float then (x * x)%float else nan.

#[export] Instance libm : Libm :=
  {| c_sin := ref_sin; c_cos := ref_cos; c_asin := ref_asin; c_pow := ref_pow;
     c_sin_nan := eq_refl; c_cos_nan := eq_refl; c_asin_nan := eq_refl;
     c_sin_zero := eq_refl; c_cos_zero := eq_refl; c_asin_zero := eq_refl;
     c_sin_inf := conj eq_refl eq_refl; c_cos_inf := conj eq_refl eq_refl;
     c_asin_range := ref_asin_range |}.

Definition Z_to_float (z : Z) : float :=
  SF2Prim (binary_normalize prec emax z 0 false).

Definition digit (c : ascii) : option Z :=
  let n := N_of_ascii c in
  if ((48 <=? n) && (n <=? 57))%N then Some (Z.of_N (n - 48)) else None.

(** The value of a string of decimal digits, continuing from [acc]. *)
Fixpoint digits (s : string) (acc : Z) : option Z :=
  match s with
  | EmptyString => Some acc
  | String c s' => d ← digit c; digits s' (10 * acc + d)%Z
  end.

(** Splits off a leading sign: [(negative, rest)]. *)
Definition signed (s : string) : bool * string :=
  match s with
  | String "-" s' => (true, s')
  | String "+" s' => (false, s')
  | _ => (false, s)
  end.

Fixpoint split_dot (s : string) : string * option string :=
  match s with
  | EmptyString => (EmptyString, None)
  | String "." s' => (EmptyString, Some s')
  | String c s' => let '(a, b) := split_dot s' in (String c a, b)
  end.

Definition ref_int_of_str (s : string) : option Z :=
  let '(neg, t) := signed (PyStr.strip s) in
  if PyStr.truthy t
  then n ← digits t 0; Some (if neg then - n else n)%Z
  else None.

Definition ref_float_of_str (s : string) : option float :=
  let '(neg, t) := signed (PyStr.lower (PyStr.strip s)) in
  let sgn (x : float) : float := if neg then (- x)%float else x in
  if String.eqb t "nan" then Some nan
  else if String.eqb t "inf" || String.eqb t "infinity"
  then Some (sgn infinity)
  else
    let '(ip, fp) := split_dot t in
    let fp := default EmptyString fp in
    if PyStr.truthy (ip ++ fp)%string
    then
      n ← digits (ip ++ fp)%string 0;
      Some (sgn (Z_to_float n / Z_to_float (10 ^ Z.of_nat (String.length fp)))%float)
    else None.

(** The integer nearest to ten times the magnitude of a finite float, ties
    to even. *)
Definition tenths (m : positive) (e : Z) : Z :=
  if (0 <=? e)%Z then (Z.shiftl (Zpos m) e * 10)%Z
  else
    let num := (Zpos m * 10)%Z in
    let den := Z.shiftl 1 (- e) in
    let q := (num / den)%Z in
    let r := (num mod den)%Z in
    match (2 * r ?= den)%Z with
    | Lt => q
    | Gt => (q + 1)%Z
    | Eq => if Z.even q then q else (q + 1)%Z
    end.

Definition ref_format_1f (x : float) : string :=
  match Prim2SF x with
  | S754_nan => "nan"
  | S754_infinity s => if s then "-inf" else "inf"
  | S754_zero s => if s then "-0.0" else "0.0"
  | S754_finite s m e =>
      let n := tenths m e in
      ((if s then "-" else "")
       ++ pretty (n / 10)%Z ++ "." ++ pretty (n mod 10)%Z)%string
  end.

Definition ref_round1 (x : float) : float :=
  match Prim2SF x with
  | S754_finite s m e =>
      if (0 <=? e)%Z then x
      else
        let r := (Z_to_float (tenths m e) / 10)%float in
        if s then (- r)%float else r
  | _ => x
  end.

#[export] Instance builtins : Builtins :=
  {| float_of_str := ref_float_of_str; int_of_str := ref_int_of_str;
     round1 := ref_round1; format_1f := ref_format_1f |}.

End Reference.

(** ** Sample requests *)

Module Examples.

(** A feature with a name and coordinates [[lng, lat]]. *)
Definition place (name : string) (categories : list string)
  (coordinates : list pyval) : feature :=
  {| feat_properties :=
       Some {| prop_name := Some name; prop_formatted := None;
               prop_address_line1 := None;
               prop_categories := Some categories;
               prop_opening_hours := None; prop_place_id := None;
               prop_contact_phone := None; prop_rate := None |};
     feat_geometry := Some (Some coordinates) |}.

(** A provider that answers every request with the same features. *)
Definition answering (features : list feature)
  : places_request → provider_reply :=
  λ _, ProviderData (Some features).

Definition query (lat lng department radius_m : option string) : query_args :=
  {| arg_lat := lat; arg_lng := lng; arg_department := department;
     arg_radius_m := radius_m |}.

(** Three places north of the origin; the second has no usable position. *)
Definition three_places : list feature :=
  [place "North Clinic" [] [VInt 0; VInt 2];
   place "City Heart Center" ["healthcare.clinic"] [];
   place "Riverside Emergency Care" [] [VInt 0; VInt 1]].

(** The same places, the second one with NaN coordinates. *)
Definition nan_places : list feature :=
  [place "North Clinic" [] [VInt 0; VInt 2];
   place "City Heart Center" ["healthcare.clinic"] [VFloat nan; VFloat nan];
   place "Riverside Emergency Care" [] [VInt 0; VInt 1]].

(** A place [k] degrees due north of the origin. *)
Definition clinic (k : nat) : feature :=
  place ("Clinic " ++ pretty k)%string [] [VInt 0; VInt (Z.of_nat k)].

(** Sixteen places due north of the origin, the farthest first. *)
Definition sixteen_places : list feature :=
  clinic <$> reverse (seq 1 16).

(** Fourteen places from near to far, then one with NaN coordinates, then
    the nearest of all. *)
Definition sixteen_with_nan : list feature :=
  (clinic <$> seq 2 14)
  ++ [place "Lost Clinic" [] [VFloat nan; VFloat nan]; clinic 1].

End Examples.

(** * Properties *)

(** ** Triage evaluator *)

Section TriageFacts.
Import Triage.

Lemma has_red_flag_intro (r : symptom_report) (s : string) :
  s ∈ symptoms r → PyStr.lower s ∈ red_flag_symptoms → has_red_flag r = true.
Proof.
  intros Hs Hred. unfold has_red_flag, lower_symptoms.
  apply bool_decide_eq_true.
  assert (PyStr.lower s ∈ (list_to_set (PyStr.lower <$> symptoms r) : gset string))
    as Hin by (apply elem_of_list_to_set, list_elem_of_fmap; eauto).
  intros Hempty.
  apply (not_elem_of_empty (C := gset string) (PyStr.lower s)).
  rewrite <- Hempty. by apply elem_of_intersection.
Qed.

(** The red-flag guard is exactly "some lower-cased symptom is a red flag". *)
Lemma has_red_flag_spec (r : symptom_report) :
  has_red_flag r = true ↔
  ∃ s, s ∈ symptoms r ∧ PyStr.lower s ∈ red_flag_symptoms.
Proof.
  split.
  - unfold has_red_flag, lower_symptoms. intros H%bool_decide_eq_true.
    apply set_choose_L in H as [k Hk].
    apply elem_of_intersection in Hk as [Hk Hred].
    apply elem_of_list_to_set, list_elem_of_fmap in Hk as (s & -> & Hs).
    eauto.
  - intros (s & Hs & Hred). eauto using has_red_flag_intro.
Qed.



(** C6: headache, nausea and rash, mild, for a day: none of the first three
    concern guards holds and the count guard does, so the concern is
    "moderate"; the gastroenterology keywords are tested first, so the
    department is "Gastroenterology" although the neurology and dermatology
    keywords match too. *)
Theorem three_symptoms_moderate_gastro :
  let r := {| symptoms := ["headache"; "nausea"; "rash"]; severity := "mild";
              duration := "day" |} in
  has_red_flag r = false ∧ is_severe r = false
  ∧ moderate_or_lasting r = false ∧ many_symptoms r = true
  ∧ concern_level (assess r) = "moderate"
  ∧ any_in neuro_keywords (lower_symptoms (symptoms r)) = true
  ∧ any_in derma_keywords (lower_symptoms (symptoms r)) = true
  ∧ dept r = "Gastroenterology"
  ∧ recommended_departments (assess r) = ["Gastroenterology"].
Proof. vm_compute. repeat split. Qed.

(** C7: chest pain alone, no severity, no duration: concern "high", and
    the recommended departments are "Emergency" then "Cardiology". *)
Theorem chest_pain_emergency_cardiology :
  let a := assess {| symptoms := ["chest pain"]; severity := "";
                     duration := "" |} in
  concern_level a = "high"
  ∧ recommended_departments a = ["Emergency"; "Cardiology"]
  ∧ ∃ i j, recommended_departments a !! i = Some "Emergency"
           ∧ recommended_departments a !! j = Some "Cardiology" ∧ i < j.
Proof.
  vm_compute. repeat split. exists 0, 1. repeat split. lia.
Qed.

End TriageFacts.

(** ** Distance calculator *)

Section DistanceFacts.
Context `{L : Libm}.

(** Only [Exception] subclasses come out of the numeric primitives. *)
Definition raises_Exception {A} (m : exc A) : Prop :=
  ∀ e, m = Raise e → is_Exception e = true.

Lemma raises_Exception_bind {A B} (m : exc A) (k : A → exc B) :
  raises_Exception m → (∀ a, raises_Exception (k a)) →
  raises_Exception (m ≫= k).
Proof.
  intros Hm Hk e. destruct m as [a|e']; simpl.
  - apply Hk.
  - intros [= ->]. by apply Hm.
Qed.

Lemma raises_Exception_Ok {A} (a : A) : raises_Exception (Ok a).
Proof. by intros e. Qed.

Lemma float_of_Z_raises z : raises_Exception (float_of_Z z).
Proof. intros e. unfold float_of_Z. case_match; by intros [= <-]. Qed.

Lemma as_double_raises v : raises_Exception (as_double v).
Proof.
  destruct v; simpl; try (by intros e [= <-]).
  apply float_of_Z_raises.
Qed.

Lemma radians_raises v : raises_Exception (PyMath.radians v).
Proof.
  apply raises_Exception_bind; [apply as_double_raises|].
  intros a. apply raises_Exception_Ok.
Qed.

Lemma math_1_raises f x : raises_Exception (PyMath.math_1 f x).
Proof. intros e. unfold PyMath.math_1. repeat case_match; by intros [= <-]. Qed.

Lemma pow2_raises x : raises_Exception (PyMath.pow2 x).
Proof. intros e. unfold PyMath.pow2. repeat case_match; by intros [= <-]. Qed.

Lemma haversine_body_raises a b c d :
  raises_Exception (haversine_body a b c d).
Proof.
  unfold haversine_body.
  repeat (apply raises_Exception_bind;
          [first [apply radians_raises | apply math_1_raises
                 | apply pow2_raises] | intros ?]).
  apply raises_Exception_Ok.
Qed.

(** The function returns [None] exactly when its body raises. *)
Lemma haversine_None_iff a b c d :
  haversine_distance_km a b c d = Ok None ↔
  ∃ e, haversine_body a b c d = Raise e.
Proof.
  unfold haversine_distance_km.
  pose proof (haversine_body_raises a b c d) as Hr.
  destruct (haversine_body a b c d) as [x|e]; simpl.
  - split; [done | by intros [? ?]].
  - rewrite (Hr e eq_refl). split; eauto.
Qed.

Lemma haversine_returns a b c d :
  ∃ r, haversine_distance_km a b c d = Ok r.
Proof.
  unfold haversine_distance_km.
  pose proof (haversine_body_raises a b c d) as Hr.
  destruct (haversine_body a b c d) as [x|e]; simpl; [eauto|].
  rewrite (Hr e eq_refl). eauto.
Qed.

(** Arguments that are not numbers. *)
Definition non_numeric (v : pyval) : bool :=
  match v with
  | VNone | VStr _ => true
  | _ => false
  end.

Lemma radians_non_numeric v :
  non_numeric v = true → PyMath.radians v = Raise TypeError.
Proof. by destruct v. Qed.

Lemma haversine_body_non_numeric a b c d :
  non_numeric a || non_numeric b || non_numeric c || non_numeric d = true →
  ∃ e, haversine_body a b c d = Raise e.
Proof.
  intros H. unfold haversine_body.
  destruct (non_numeric a) eqn:Ha.
  { rewrite (radians_non_numeric a Ha). simpl. eauto. }
  destruct (PyMath.radians a) as [ra|]; simpl; [|eauto].
  destruct (non_numeric b) eqn:Hb.
  { rewrite (radians_non_numeric b Hb). simpl. eauto. }
  destruct (PyMath.radians b) as [rb|]; simpl; [|eauto].
  destruct (non_numeric c) eqn:Hc.
  { rewrite (radians_non_numeric c Hc). simpl. eauto. }
  destruct (PyMath.radians c) as [rc|]; simpl; [|eauto].
  simpl in H. rewrite (radians_non_numeric d H). simpl. eauto.
Qed.

End DistanceFacts.

(** ** Python floats: special values and order *)

Section FloatFacts.
Context `{L : Libm}.

Lemma sin_nan : PyMath.sin nan = Ok nan.
Proof. unfold PyMath.sin, PyMath.math_1. by rewrite c_sin_nan. Qed.

Lemma cos_nan : PyMath.cos nan = Ok nan.
Proof. unfold PyMath.cos, PyMath.math_1. by rewrite c_cos_nan. Qed.

Lemma asin_nan : PyMath.asin nan = Ok nan.
Proof. unfold PyMath.asin, PyMath.math_1. by rewrite c_asin_nan. Qed.

Lemma sin_zero : PyMath.sin 0 = Ok 0%float.
Proof. unfold PyMath.sin, PyMath.math_1. by rewrite c_sin_zero. Qed.

Lemma cos_zero : PyMath.cos 0 = Ok 1%float.
Proof. unfold PyMath.cos, PyMath.math_1. by rewrite c_cos_zero. Qed.

Lemma asin_zero : PyMath.asin 0 = Ok 0%float.
Proof. unfold PyMath.asin, PyMath.math_1. by rewrite c_asin_zero. Qed.

Lemma cos_infinity : PyMath.cos infinity = Raise ValueError.
Proof.
  unfold PyMath.cos, PyMath.math_1. by rewrite (proj1 c_cos_inf).
Qed.

Lemma cos_neg_infinity : PyMath.cos neg_infinity = Raise ValueError.
Proof.
  unfold PyMath.cos, PyMath.math_1. by rewrite (proj2 c_cos_inf).
Qed.

End FloatFacts.

(** Comparison of the IEEE values behind two floats. *)
Ltac compare_cases :=
  change (Pos.compare_cont Eq) with Pos.compare in *;
  repeat match goal with
  | H : context [Z.compare ?a ?b] |- _ =>
      destruct (Z.compare_spec a b); simpl in H
  | |- context [Z.compare ?a ?b] => destruct (Z.compare_spec a b); simpl
  | H : context [Pos.compare ?a ?b] |- _ =>
      destruct (Pos.compare_spec a b); simpl in H
  | |- context [Pos.compare ?a ?b] => destruct (Pos.compare_spec a b); simpl
  end.

Lemma SFltb_neg_trans x y z :
  x ≠ S754_nan → y ≠ S754_nan → z ≠ S754_nan →
  SFltb y x = false → SFltb z y = false → SFltb z x = false.
Proof.
  intros Hx Hy Hz. unfold SFltb, SFcompare.
  destruct x as [[]|[]| |[] mx ex], y as [[]|[]| |[] my ey],
    z as [[]|[]| |[] mz ez];
    try done; simpl; try done; intros H1 H2; compare_cases;
    try done; try lia.
Qed.

Lemma SFltb_asym x y : SFltb x y = true → SFltb y x = false.
Proof.
  unfold SFltb, SFcompare.
  destruct x as [[]|[]| |[] mx ex], y as [[]|[]| |[] my ey];
    try done; simpl; try done; intros H1; compare_cases; try done; try lia.
Qed.

Lemma SFleb_ltb x y :
  x ≠ S754_nan → y ≠ S754_nan → SFleb x y = negb (SFltb y x).
Proof.
  intros Hx Hy. unfold SFleb, SFltb, SFcompare.
  destruct x as [[]|[]| |[] mx ex], y as [[]|[]| |[] my ey];
    try done; simpl; try done; compare_cases; try done; try lia.
Qed.

Lemma SFeqb_ltb x y : SFeqb x y = true → SFltb x y = false.
Proof. unfold SFeqb, SFltb. by destruct (SFcompare x y) as [[]|]. Qed.

Lemma SFeqb_nan x : SFeqb x x = false → x = S754_nan.
Proof.
  unfold SFeqb, SFcompare.
  destruct x as [[]|[]| |[] mx ex]; try done; simpl;
    change (Pos.compare_cont Eq) with Pos.compare;
    by rewrite Z.compare_refl, Pos.compare_refl.
Qed.

Lemma not_nan_spec (x : float) : is_nan x = false → Prim2SF x ≠ S754_nan.
Proof.
  unfold is_nan. rewrite FloatAxioms.eqb_spec. intros H Hn. by rewrite Hn in H.
Qed.

Lemma is_nan_spec (x : float) : is_nan x = true → x = nan.
Proof.
  unfold is_nan. rewrite FloatAxioms.eqb_spec. intros H%negb_true_iff%SFeqb_nan.
  apply Prim2SF_inj. by rewrite H.
Qed.

Lemma ltb_asym (x y : float) : (x <? y)%float = true → (y <? x)%float = false.
Proof. rewrite !FloatAxioms.ltb_spec. apply SFltb_asym. Qed.

Lemma ltb_neg_trans (x y z : float) :
  is_nan x = false → is_nan y = false → is_nan z = false →
  (y <? x)%float = false → (z <? y)%float = false → (z <? x)%float = false.
Proof.
  intros Hx%not_nan_spec Hy%not_nan_spec Hz%not_nan_spec. rewrite !FloatAxioms.ltb_spec.
  by apply SFltb_neg_trans.
Qed.

Lemma leb_not_ltb (x y : float) :
  is_nan x = false → is_nan y = false →
  (x <=? y)%float = negb (y <? x)%float.
Proof.
  intros Hx%not_nan_spec Hy%not_nan_spec. rewrite FloatAxioms.leb_spec, FloatAxioms.ltb_spec.
  by apply SFleb_ltb.
Qed.

Lemma eqb_not_ltb (x y : float) : (x =? y)%float = true → (x <? y)%float = false.
Proof. rewrite FloatAxioms.eqb_spec, FloatAxioms.ltb_spec. apply SFeqb_ltb. Qed.

(** ** Magnitude of float products

    A product of two finite floats is rounded by [binary_round_aux]; the
    exponent of the result is bounded by the exponents of the factors, so
    a product of small factors does not overflow. *)

Section FloatMagnitude.
Local Open Scope Z_scope.

Lemma digits2_pos_spec (m : positive) :
  (2 ^ (Zpos (digits2_pos m) - 1) <= Zpos m < 2 ^ Zpos (digits2_pos m))%Z.
Proof.
  induction m as [m IH|m IH|]; simpl digits2_pos; [| |simpl; lia].
  all: rewrite Pos2Z.inj_succ, Z.pow_succ_r by lia.
  all: replace (Z.succ (Zpos (digits2_pos m)) - 1) with (Z.succ (Zpos (digits2_pos m) - 1)) by lia.
  all: rewrite Z.pow_succ_r by lia; lia.
Qed.

Lemma Zdigits2_le (z k : Z) : 0 ≤ z → 0 ≤ k → z < 2 ^ k → Zdigits2 z ≤ k.
Proof.
  intros Hz Hk Hlt. destruct z as [|m|m]; simpl; [lia| |lia].
  pose proof (digits2_pos_spec m) as [Hlo _].
  apply Z.nlt_ge. intros Hgt.
  assert (2 ^ k ≤ 2 ^ (Zpos (digits2_pos m) - 1)) by (apply Z.pow_le_mono_r; lia).
  lia.
Qed.

Lemma shr_1_m mrs : 0 ≤ shr_m mrs → shr_m (shr_1 mrs) = shr_m mrs / 2.
Proof.
  destruct mrs as [m r s]. simpl. intros Hm.
  rewrite <- Z.div2_div. by destruct m as [|[p|p|]|p].
Qed.

Lemma pow2_xO (p : positive) : 2 ^ Zpos p~0 = 2 ^ Zpos p * 2 ^ Zpos p.
Proof.
  rewrite (Pos2Z.inj_xO p). replace (2 * Zpos p) with (Zpos p + Zpos p) by lia.
  by rewrite Z.pow_add_r by lia.
Qed.

Lemma pow2_xI (p : positive) : 2 ^ Zpos p~1 = 2 * (2 ^ Zpos p * 2 ^ Zpos p).
Proof.
  rewrite (Pos2Z.inj_xI p).
  replace (2 * Zpos p + 1) with (Z.succ (Zpos p + Zpos p)) by lia.
  by rewrite Z.pow_succ_r, Z.pow_add_r by lia.
Qed.

Lemma iter_shr_1_m p mrs :
  0 ≤ shr_m mrs →
  shr_m (SpecFloat.iter_pos shr_1 p mrs) = shr_m mrs / 2 ^ Zpos p.
Proof.
  revert mrs. induction p as [p IH|p IH|]; intros mrs Hm;
    simpl SpecFloat.iter_pos.
  - assert (0 ≤ shr_m (shr_1 mrs)) as H1
      by (rewrite shr_1_m by done; apply Z.div_pos; lia).
    assert (0 ≤ shr_m (SpecFloat.iter_pos shr_1 p (shr_1 mrs))) as H2
      by (rewrite IH by done; apply Z.div_pos; lia).
    rewrite IH, IH, shr_1_m by done.
    rewrite !Z.div_div by lia. by rewrite pow2_xI, Z.mul_assoc.
  - assert (0 ≤ shr_m (SpecFloat.iter_pos shr_1 p mrs)) as H2
      by (rewrite IH by done; apply Z.div_pos; lia).
    rewrite IH, IH by done.
    rewrite !Z.div_div by lia. by rewrite pow2_xO.
  - rewrite shr_1_m by done. done.
Qed.

Lemma round_nearest_even_bounds m l :
  m ≤ round_nearest_even m l ≤ m + 1.
Proof. destruct l as [|[]]; simpl; try case_match; lia. Qed.

(** Zero, or finite with an exponent of at most [k]. *)
Definition SFfin_le (x : spec_float) (k : Z) : Prop :=
  match x with
  | S754_zero _ => True
  | S754_finite _ _ e => e ≤ k
  | _ => False
  end.

Lemma binary_round_aux_fin s m E k :
  E ≤ k → Zpos (digits2_pos m) + E - 52 ≤ k → -1074 ≤ k → k ≤ 971 →
  SFfin_le (binary_round_aux prec emax s (Zpos m) E loc_Exact) k.
Proof.
  intros HE HD Hmin Hmax.
  unfold binary_round_aux, shr_fexp, shr. simpl Zdigits2.
  change (Z.sub emax prec) with 971.
  set (D := Zpos (digits2_pos m)) in *.
  assert (fexp prec emax (D + E) = Z.max (D + E - 53) (-1074)) as Hf by done.
  destruct (fexp prec emax (D + E) - E) as [|p|p] eqn:Hn.
  - simpl. fold D. rewrite Hn. simpl.
    assert ((E <=? 971) = true) as -> by (apply Z.leb_le; lia).
    done.
  - set (mrs' := SpecFloat.iter_pos shr_1 p _).
    assert (shr_m mrs' = Zpos m / 2 ^ Zpos p) as Hm1
      by (unfold mrs'; by rewrite iter_shr_1_m).
    pose proof (round_nearest_even_bounds (shr_m mrs') (loc_of_shr_record mrs'))
      as Hr.
    set (m1' := round_nearest_even _ _) in *.
    assert (0 ≤ shr_m mrs') as Hm1pos by (rewrite Hm1; apply Z.div_pos; lia).
    set (e' := E + Zpos p) in *.
    assert (e' = Z.max (D + E - 53) (-1074)) as He' by (unfold e'; lia).
    assert (Zdigits2 m1' + e' - 53 ≤ k) as Hd1.
    { pose proof (digits2_pos_spec m) as [_ Hhi]. fold D in Hhi.
      destruct (Z.le_gt_cases (Zpos p) D) as [Hp|Hp].
      - assert (Zdigits2 m1' ≤ D - Zpos p + 1); [|lia].
        apply Zdigits2_le; [lia..|].
        assert (Zpos m / 2 ^ Zpos p < 2 ^ (D - Zpos p)).
        { apply Z.div_lt_upper_bound; [lia|].
          rewrite <- Z.pow_add_r by lia. by replace (Zpos p + (D - Zpos p)) with D by lia. }
        rewrite Z.pow_add_r by lia. lia.
      - assert (Zdigits2 m1' ≤ 1); [|lia].
        apply Zdigits2_le; [lia..|].
        assert (Zpos m / 2 ^ Zpos p = 0).
        { apply Z.div_small. split; [lia|].
          eapply Z.lt_le_trans; [done|]. apply Z.pow_le_mono_r; lia. }
        simpl. lia. }
    assert (fexp prec emax (Zdigits2 m1' + e')
            = Z.max (Zdigits2 m1' + e' - 53) (-1074)) as Hf2 by done.
    destruct (fexp prec emax (Zdigits2 m1' + e') - e') as [|p2|p2] eqn:Hn2.
    + simpl. destruct m1' as [|q|q] eqn:Eq; [done| |lia].
      assert ((e' <=? 971) = true) as -> by (apply Z.leb_le; lia).
      simpl. lia.
    + simpl. rewrite iter_shr_1_m by (simpl; lia). simpl shr_m.
      assert (0 ≤ m1' / 2 ^ Zpos p2) by (apply Z.div_pos; lia).
      destruct (m1' / 2 ^ Zpos p2) as [|q|q] eqn:Eq; [done| |lia].
      assert ((e' + Zpos p2 <=? 971) = true) as ->
        by (apply Z.leb_le; lia).
      simpl. lia.
    + simpl. destruct m1' as [|q|q] eqn:Eq; [done| |lia].
      assert ((e' <=? 971) = true) as -> by (apply Z.leb_le; lia).
      simpl. lia.
  - simpl. fold D. rewrite Hn. simpl.
    assert ((E <=? 971) = true) as -> by (apply Z.leb_le; lia).
    done.
Qed.

Lemma digits2_pos_mul (a b : positive) :
  Zpos (digits2_pos (a * b))
  ≤ Zpos (digits2_pos a) + Zpos (digits2_pos b).
Proof.
  pose proof (digits2_pos_spec a) as [_ Ha].
  pose proof (digits2_pos_spec b) as [_ Hb].
  apply (Zdigits2_le (Zpos (a * b))); [lia..|].
  rewrite Z.pow_add_r, Pos2Z.inj_mul by lia. nia.
Qed.

Lemma valid_digits s m e :
  valid_binary (S754_finite s m e) = true → Zpos (digits2_pos m) ≤ 53.
Proof.
  simpl. unfold bounded, canonical_mantissa.
  intros [Hc _]%andb_prop. apply Z.eqb_eq in Hc.
  assert (fexp prec emax (Zpos (digits2_pos m) + e)
          = Z.max (Zpos (digits2_pos m) + e - 53) (-1074)) as Hf by done.
  lia.
Qed.

(** Zero, or finite with an exponent of at most [k]. *)
Definition fin_le (x : float) (k : Z) : Prop := SFfin_le (Prim2SF x) k.

Lemma mul_fin_le (x y : float) (a b k : Z) :
  fin_le x a → fin_le y b → a + b + 54 ≤ k → -1074 ≤ k → k ≤ 971 →
  fin_le (x * y) k.
Proof.
  unfold fin_le. rewrite mul_spec. unfold SF64mul, SFmul.
  pose proof (Prim2SF_valid x) as Hvx. pose proof (Prim2SF_valid y) as Hvy.
  destruct (Prim2SF x) as [sx|sx| |sx mx ex], (Prim2SF y) as [sy|sy| |sy my ey];
    try done.
  simpl. intros Hx Hy Hk Hmin Hmax.
  apply valid_digits in Hvx, Hvy.
  pose proof (digits2_pos_mul mx my).
  apply binary_round_aux_fin; lia.
Qed.

Lemma abs_le_2_fin_le (t : float) : (abs t <=? 2)%float = true → fin_le t (-51).
Proof.
  unfold fin_le. rewrite FloatAxioms.leb_spec, abs_spec.
  change (Prim2SF 2) with (S754_finite false 4503599627370496 (-51)).
  destruct (Prim2SF t) as [s|s| |s m e]; try done.
  unfold SFleb, SFcompare, SFabs, SFfin_le. cbv beta iota.
  destruct (Z.compare_spec e (-51)); [lia|lia|]. cbv beta iota. done.
Qed.

Lemma int_of_float_fin_le (x : float) k : fin_le x k → ∃ n, int_of_float x = Ok n.
Proof.
  unfold fin_le, int_of_float. destruct (Prim2SF x); try done; eauto.
Qed.

End FloatMagnitude.

(** ** Range of the computed distance *)

Section DistanceRange.
Context `{L : Libm}.

Lemma bind_Ok_inv {A B} (m : exc A) (k : A → exc B) (b : B) :
  m ≫= k = Ok b → ∃ a, m = Ok a ∧ k a = Ok b.
Proof. destruct m as [a|e]; simpl; [eauto|done]. Qed.

Lemma math_1_Ok f x r : PyMath.math_1 f x = Ok r → r = f x.
Proof. unfold PyMath.math_1. repeat case_match; congruence. Qed.

(** A distance that [haversine_distance_km] returns is NaN, or zero or
    finite and far from overflowing. *)
Definition moderate (dk : float) : Prop := dk = nan ∨ fin_le dk (-34).

Lemma haversine_body_moderate a b c d dk :
  haversine_body a b c d = Ok dk → moderate dk.
Proof.
  intros H. unfold haversine_body in H.
  repeat (apply bind_Ok_inv in H as (? & ? & H); cbv beta zeta in H).
  injection H as <-.
  match goal with Ha : PyMath.asin ?r = Ok ?t |- _ =>
    apply math_1_Ok in Ha;
    destruct (c_asin_range r) as [Hn|Hr];
      [rewrite <- Ha in Hn|rewrite <- Ha in Hr]
  end.
  - left. by rewrite Hn.
  - right. apply abs_le_2_fin_le in Hr.
    apply (mul_fin_le _ _ (-40) (-48)); [by vm_compute| |done..].
    apply (mul_fin_le _ _ (-51) (-51)); [by vm_compute|done..].
Qed.

Lemma haversine_moderate a b c d dk :
  haversine_distance_km a b c d = Ok (Some dk) → moderate dk.
Proof.
  unfold haversine_distance_km, try_except_Exception.
  destruct (haversine_body a b c d) as [x|e] eqn:Hbody; simpl.
  - intros [= <-]. by eapply haversine_body_moderate.
  - by case_match.
Qed.

End DistanceRange.

(** ** The sort *)

Section SortFacts.
Context {A K : Type} (key : A → K) (lt : K → K → bool).

Local Abbreviation insert_back := (PySort.insert_back key lt).
Local Abbreviation sort_rev := (PySort.sort_rev key lt).
Local Abbreviation list_sort := (PySort.list_sort key lt).

(** [a] may stay before [b]: [b] is not strictly less than [a]. *)
Definition not_after (a b : A) : Prop := lt (key b) (key a) = false.

Lemma insert_back_Permutation x acc : insert_back x acc ≡ₚ x :: acc.
Proof.
  induction acc as [|y r IH]; simpl; [done|].
  case_match; [|done]. rewrite IH. apply Permutation_swap.
Qed.

Lemma sort_rev_Permutation l acc : sort_rev l acc ≡ₚ l ++ acc.
Proof.
  revert acc. induction l as [|x l IH]; intros acc; simpl; [done|].
  unfold PySort.sort_rev in *. simpl. rewrite IH, insert_back_Permutation.
  by rewrite Permutation_middle.
Qed.

Lemma list_sort_Permutation l : list_sort l ≡ₚ l.
Proof.
  unfold PySort.list_sort.
  by rewrite reverse_Permutation, sort_rev_Permutation, app_nil_r.
Qed.

(** Stability: items that are pairwise not less than one another keep
    their order. *)
Lemma insert_back_filter (P : A → Prop) `{!∀ x, Decision (P x)} x acc :
  (∀ y, y ∈ acc → P x → P y → lt (key x) (key y) = false) →
  filter P (insert_back x acc) = filter P (x :: acc).
Proof.
  induction acc as [|y r IH]; intros Hcls; simpl; [done|].
  destruct (lt (key x) (key y)) eqn:Hlt; [|done].
  rewrite (filter_cons _ y), IH, !(filter_cons _ x), (filter_cons _ y).
  - destruct (decide (P x)) as [Hx|]; [|done].
    destruct (decide (P y)) as [Hy|]; [|done].
    rewrite Hcls in Hlt; [done| |done..]. left.
  - intros z Hz. apply Hcls. by right.
Qed.

Lemma elem_of_sort_step a x l acc :
  a ∈ l ++ insert_back x acc → a ∈ (x :: l) ++ acc.
Proof.
  rewrite elem_of_app, insert_back_Permutation. simpl.
  rewrite !elem_of_cons, elem_of_app. tauto.
Qed.

Lemma sort_rev_filter (P : A → Prop) `{!∀ x, Decision (P x)} l acc :
  (∀ x y, x ∈ l ++ acc → y ∈ l ++ acc → P x → P y →
          lt (key x) (key y) = false) →
  filter P (sort_rev l acc) = reverse (filter P l) ++ filter P acc.
Proof.
  revert acc. induction l as [|x l IH]; intros acc Hcls; [done|].
  unfold PySort.sort_rev in *. simpl. rewrite IH.
  - rewrite insert_back_filter.
    + rewrite !(filter_cons _ x). destruct (decide (P x)); [|done].
      by rewrite reverse_cons, <- app_assoc.
    + intros y Hy. apply Hcls; simpl; [left|right; apply elem_of_app; by right].
  - intros a b Ha Hb. apply Hcls; by apply elem_of_sort_step.
Qed.

Lemma list_sort_stable (P : A → Prop) `{!∀ x, Decision (P x)} l :
  (∀ x y, x ∈ l → y ∈ l → P x → P y → lt (key x) (key y) = false) →
  filter P (list_sort l) = filter P l.
Proof.
  intros Hcls. unfold PySort.list_sort.
  rewrite filter_reverse, sort_rev_filter.
  - by rewrite app_nil_r, reverse_involutive.
  - intros x y. rewrite !app_nil_r. apply Hcls.
Qed.

Lemma Sorted_app_r (R : relation A) l1 l2 :
  Sorted R (l1 ++ l2) → Sorted R l2.
Proof.
  induction l1 as [|a l1 IH]; simpl; [done|].
  intros [Hs _]%Sorted_inv. by apply IH.
Qed.

(** A list without an adjacent descent is left as it is. *)
Lemma sort_rev_run l acc :
  Sorted not_after (reverse acc ++ l) → sort_rev l acc = reverse l ++ acc.
Proof.
  revert acc. induction l as [|x l IH]; intros acc Hrun; [done|].
  unfold PySort.sort_rev in *. simpl.
  assert (insert_back x acc = x :: acc) as ->.
  { destruct acc as [|y r]; simpl; [done|].
    rewrite reverse_cons, <- !app_assoc in Hrun. simpl in Hrun.
    apply Sorted_app_r in Hrun.
    apply Sorted_inv in Hrun as [_ Hhd]. inversion Hhd as [|? ? Hxy]; subst.
    unfold not_after in Hxy. by rewrite Hxy. }
  rewrite IH.
  - by rewrite reverse_cons, <- app_assoc.
  - by rewrite reverse_cons, <- app_assoc.
Qed.

Lemma list_sort_run l : Sorted not_after l → list_sort l = l.
Proof.
  intros Hrun. unfold PySort.list_sort. rewrite sort_rev_run.
  - by rewrite app_nil_r, reverse_involutive.
  - by rewrite reverse_nil.
Qed.

(** Sortedness, for items on which [<] is a strict weak order. *)
Section Sorted.
Context (ok : A → Prop).
Hypothesis lt_asym : ∀ x y, lt (key x) (key y) = true → not_after x y.
Hypothesis not_after_trans :
  ∀ x y z, ok x → ok y → ok z → not_after x y → not_after y z → not_after x z.

Lemma insert_back_sorted x acc :
  ok x → Forall ok acc →
  StronglySorted (flip not_after) acc →
  StronglySorted (flip not_after) (insert_back x acc).
Proof.
  intros Hx. induction acc as [|y r IH]; intros Hok Hs; simpl.
  { repeat constructor. }
  apply Forall_cons in Hok as [Hy Hr].
  apply StronglySorted_inv in Hs as [Hs Hall].
  destruct (lt (key x) (key y)) eqn:Hlt.
  - constructor; [by apply IH|].
    rewrite insert_back_Permutation. constructor; [|done].
    by apply lt_asym.
  - constructor; [by constructor|]. constructor; [done|].
    rewrite Forall_forall in Hall, Hr |- *. intros z Hz.
    apply (not_after_trans z y x); [by apply Hr|done..| |done].
    by apply Hall.
Qed.

Lemma sort_rev_sorted l acc :
  Forall ok l → Forall ok acc →
  StronglySorted (flip not_after) acc →
  StronglySorted (flip not_after) (sort_rev l acc).
Proof.
  revert acc. induction l as [|x l IH]; intros acc Hl Hacc Hs; [done|].
  apply Forall_cons in Hl as [Hx Hl].
  unfold PySort.sort_rev in *. simpl. apply IH; [done| |].
  - rewrite insert_back_Permutation. by constructor.
  - by apply insert_back_sorted.
Qed.

Lemma StronglySorted_flip_reverse (R : relation A) l :
  StronglySorted (flip R) l → StronglySorted R (reverse l).
Proof.
  induction 1 as [|a l Hs IH Hall]; [constructor|].
  rewrite reverse_cons. apply StronglySorted_app_2; [|done|repeat constructor].
  intros x1 x2 Hx1 Hx2%list_elem_of_singleton. subst x2.
  rewrite elem_of_reverse in Hx1.
  rewrite Forall_forall in Hall. exact (Hall x1 Hx1).
Qed.

Lemma list_sort_sorted l :
  Forall ok l → StronglySorted not_after (list_sort l).
Proof.
  intros Hl. apply StronglySorted_flip_reverse, sort_rev_sorted; [done..|].
  constructor.
Qed.

(** Neither item is strictly less than the other. *)
Definition ties (a b : A) : Prop := not_after a b ∧ not_after b a.

Global Instance ties_dec a b : Decision (ties a b).
Proof. unfold ties, not_after. apply _. Defined.

Lemma not_after_refl x : not_after x x.
Proof.
  unfold not_after. destruct (lt (key x) (key x)) eqn:E; [|done].
  by rewrite (lt_asym x x E) in E.
Qed.

Lemma ties_not_lt z x y :
  ok x → ok y → ok z → ties z x → ties z y → lt (key x) (key y) = false.
Proof.
  intros Hx Hy Hz [Hzx _] [_ Hyz].
  by apply (not_after_trans y z x).
Qed.

(** A stable sort has one possible result: two sorted arrangements of the
    same items that order tied items alike are equal. *)
Lemma stable_sorted_unique l1 l2 :
  Forall ok l1 → l1 ≡ₚ l2 →
  StronglySorted not_after l1 → StronglySorted not_after l2 →
  (∀ z, ok z → filter (ties z) l1 = filter (ties z) l2) →
  l1 = l2.
Proof.
  revert l2. induction l1 as [|x l1 IH]; intros l2 Hok Hperm Hs1 Hs2 Hst.
  { by apply Permutation_nil_l in Hperm. }
  destruct l2 as [|y l2]; [by apply Permutation_nil_r in Hperm|].
  apply Forall_cons in Hok as [Hokx Hok].
  apply StronglySorted_inv in Hs1 as [Hs1 Hx].
  apply StronglySorted_inv in Hs2 as [Hs2 Hy].
  rewrite Forall_forall in Hx, Hy.
  assert (not_after x y) as Hxy.
  { assert (y ∈ x :: l1) as [->|Hin]%elem_of_cons by (rewrite Hperm; left).
    - apply not_after_refl.
    - by apply Hx. }
  assert (not_after y x) as Hyx.
  { assert (x ∈ y :: l2) as [->|Hin]%elem_of_cons by (rewrite <- Hperm; left).
    - apply not_after_refl.
    - by apply Hy. }
  assert (x = y) as <-.
  { specialize (Hst x Hokx). rewrite !filter_cons in Hst.
    destruct (decide (ties x x)) as [|Hn];
      [|destruct Hn; split; apply not_after_refl].
    destruct (decide (ties x y)) as [|Hn]; [|by destruct Hn].
    by injection Hst. }
  f_equal. apply IH; [done|by eapply Permutation_cons_inv|done..|].
  intros z Hz. specialize (Hst z Hz). rewrite !filter_cons in Hst.
  destruct (decide (ties z x)); [by injection Hst|done].
Qed.

(** So the insertion sort above stands for any stable sort, as long as
    the items are comparable. *)
Lemma list_sort_unique l l' :
  Forall ok l → l' ≡ₚ l → StronglySorted not_after l' →
  (∀ z, ok z → filter (ties z) l' = filter (ties z) l) →
  l' = list_sort l.
Proof.
  intros Hok Hperm Hs Hst. apply stable_sorted_unique.
  - by rewrite Hperm.
  - by rewrite list_sort_Permutation.
  - done.
  - by apply list_sort_sorted.
  - intros z Hz. rewrite Hst by done. symmetry. apply list_sort_stable.
    intros x y Hx Hy Hzx Hzy. rewrite Forall_forall in Hok.
    apply (ties_not_lt z); auto.
Qed.

End Sorted.

End SortFacts.

Lemma SFeqb_class h x y :
  SFeqb h x = true → SFeqb h y = true → SFltb x y = false.
Proof.
  unfold SFeqb, SFltb, SFcompare.
  destruct h as [[]|[]| |[] mh eh], x as [[]|[]| |[] mx ex],
    y as [[]|[]| |[] my ey];
    try done; simpl; try done; intros H1 H2; compare_cases;
    try done; try lia.
Qed.

Lemma eqb_class (h x y : float) :
  (h =? x)%float = true → (h =? y)%float = true → (x <? y)%float = false.
Proof. rewrite !FloatAxioms.eqb_spec, FloatAxioms.ltb_spec. apply SFeqb_class. Qed.

(** ** Order of hospital records *)

(** The distance is unknown or a number other than NaN. *)
Definition distance_not_nan (h : Facility.t) : Prop :=
  match Facility.distance_km h with
  | Some d => is_nan d = false
  | None => True
  end.

(** [a] may come before [b] in a list ordered by distance: a known distance
    before an unknown one, known distances in [<=] order. *)
Definition distance_le (a b : Facility.t) : Prop :=
  match Facility.distance_km a, Facility.distance_km b with
  | Some x, Some y => (x <=? y)%float = true
  | Some _, None => True
  | None, Some _ => False
  | None, None => True
  end.

(** [a] and [b] compare equal: both distances unknown, or both known and
    [==]. *)
Definition same_distance (a b : Facility.t) : Prop :=
  match Facility.distance_km a, Facility.distance_km b with
  | Some x, Some y => (x =? y)%float = true
  | None, None => True
  | _, _ => False
  end.

Global Instance same_distance_dec a b : Decision (same_distance a b).
Proof.
  unfold same_distance.
  destruct (Facility.distance_km a), (Facility.distance_km b); apply _.
Defined.

(** [recs] is ordered by distance and keeps, among records that compare
    equal, the order they have in [source]. *)
Definition in_distance_order (source recs : list Facility.t) : Prop :=
  StronglySorted distance_le recs
  ∧ ∀ h, filter (same_distance h) recs
         `sublist_of` filter (same_distance h) source.

Section OrderFacts.
Import HospitalFinder.

Abbreviation key_not_after := (not_after sort_key tuple_lt).

Lemma tuple_lt_eq b1 x b2 y :
  tuple_lt (b1, x) (b2, y)
  = if Bool.eqb b1 b2 then (x <? y)%float else negb b1 && b2.
Proof.
  unfold tuple_lt. simpl. destruct (Bool.eqb b1 b2); simpl; [|done].
  destruct (x =? y)%float eqn:E; simpl; [|done].
  symmetry. by apply eqb_not_ltb.
Qed.

Lemma tuple_lt_asym k1 k2 : tuple_lt k1 k2 = true → tuple_lt k2 k1 = false.
Proof.
  destruct k1 as [b1 x], k2 as [b2 y]. rewrite !tuple_lt_eq.
  destruct b1, b2; simpl; try done; apply ltb_asym.
Qed.

Lemma key_not_after_trans x y z :
  distance_not_nan x → distance_not_nan y → distance_not_nan z →
  key_not_after x y → key_not_after y z → key_not_after x z.
Proof.
  unfold not_after, distance_not_nan, sort_key.
  destruct (Facility.distance_km x) as [dx|], (Facility.distance_km y) as [dy|],
    (Facility.distance_km z) as [dz|];
    rewrite !tuple_lt_eq; simpl; try done.
  intros. by apply (ltb_neg_trans dx dy dz).
Qed.

Lemma key_not_after_le a b :
  distance_not_nan a → distance_not_nan b →
  key_not_after a b → distance_le a b.
Proof.
  unfold not_after, distance_not_nan, distance_le, sort_key.
  destruct (Facility.distance_km a) as [da|], (Facility.distance_km b) as [db|];
    rewrite !tuple_lt_eq; simpl; try done.
  intros Ha Hb Hlt. by rewrite leb_not_ltb, Hlt.
Qed.

Lemma same_distance_not_lt h x y :
  same_distance h x → same_distance h y →
  tuple_lt (sort_key x) (sort_key y) = false.
Proof.
  unfold same_distance, sort_key.
  destruct (Facility.distance_km h) as [dh|], (Facility.distance_km x) as [dx|],
    (Facility.distance_km y) as [dy|];
    rewrite ?tuple_lt_eq; simpl; try done.
  apply eqb_class.
Qed.

Lemma StronglySorted_weaken {A} (R R' : relation A) (ok : A → Prop) l :
  (∀ a b, ok a → ok b → R a b → R' a b) →
  Forall ok l → StronglySorted R l → StronglySorted R' l.
Proof.
  intros HR Hok Hs. induction Hs as [|a l Hs IH Hall]; [constructor|].
  apply Forall_cons in Hok as [Ha Hl]. constructor; [by apply IH|].
  rewrite Forall_forall in Hall, Hl |- *. intros b Hb. apply HR; auto.
Qed.

Lemma StronglySorted_sublist {A} (R : relation A) l1 l2 :
  l1 `sublist_of` l2 → StronglySorted R l2 → StronglySorted R l1.
Proof.
  induction 1 as [|x l1 l2 Hsub IH|x l1 l2 Hsub IH];
    intros Hs; [done| |];
    apply StronglySorted_inv in Hs as [Hs Hall]; [|by apply IH].
  constructor; [by apply IH|].
  rewrite Forall_forall in Hall |- *. intros y Hy.
  apply Hall. by eapply elem_of_sublist.
Qed.

Lemma filter_sublist_mono {A} (P : A → Prop) `{!∀ x, Decision (P x)} l1 l2 :
  l1 `sublist_of` l2 → filter P l1 `sublist_of` filter P l2.
Proof.
  induction 1 as [|x l1 l2 Hsub IH|x l1 l2 Hsub IH]; [done| |].
  - rewrite !filter_cons. destruct (decide (P x)); [by constructor|done].
  - rewrite filter_cons. destruct (decide (P x)); [by constructor|done].
Qed.

(** The sort puts NaN-free records in distance order, stably. *)
Lemma sort_by_distance_order (source : list Facility.t) :
  Forall distance_not_nan source →
  in_distance_order source (sort_by_distance source).
Proof.
  intros Hok. unfold sort_by_distance. split.
  - apply (StronglySorted_weaken key_not_after _ distance_not_nan).
    + apply key_not_after_le.
    + by rewrite list_sort_Permutation.
    + apply (list_sort_sorted _ _ distance_not_nan); [|apply key_not_after_trans|done].
      intros x y. apply tuple_lt_asym.
  - intros h. rewrite list_sort_stable; [done|].
    intros x y _ _. apply same_distance_not_lt.
Qed.

Lemma sort_by_distance_Permutation source :
  sort_by_distance source ≡ₚ source.
Proof. apply list_sort_Permutation. Qed.

Lemma in_distance_order_sublist source recs recs' :
  recs' `sublist_of` recs →
  in_distance_order source recs → in_distance_order source recs'.
Proof.
  intros Hsub [Hs Hst]. split.
  - by eapply StronglySorted_sublist.
  - intros h. etrans; [|apply Hst]. by apply filter_sublist_mono.
Qed.

Lemma select_sublist department (hospitals_all : list Facility.t) :
  (select department hospitals_all).1 `sublist_of` hospitals_all.
Proof.
  unfold select. case_match; simpl.
  - apply sublist_take.
  - apply sublist_filter.
Qed.

(** Any stable sort by the same key gives the list the model gives. *)
Lemma sort_by_distance_unique source (sorted : list Facility.t) :
  Forall distance_not_nan source →
  sorted ≡ₚ source →
  StronglySorted key_not_after sorted →
  (∀ z, distance_not_nan z →
        filter (ties sort_key tuple_lt z) sorted
        = filter (ties sort_key tuple_lt z) source) →
  sorted = sort_by_distance source.
Proof.
  intros Hok Hperm Hs Hst.
  apply (list_sort_unique _ _ distance_not_nan); try done.
  - intros x y. apply tuple_lt_asym.
  - apply key_not_after_trans.
Qed.

(** The fallback keeps the nearest: what it returns is no farther than
    what it drops. *)
Lemma fallback_takes_nearest source a b :
  Forall distance_not_nan source →
  a ∈ take 15 (sort_by_distance source) →
  b ∈ drop 15 (sort_by_distance source) →
  distance_le a b.
Proof.
  intros Hok Ha Hb.
  destruct (sort_by_distance_order source Hok) as [Hs _].
  rewrite <- (take_drop 15 (sort_by_distance source)) in Hs.
  by eapply StronglySorted_app_1_elem_of.
Qed.

End OrderFacts.

(** ** Hospital finder *)

Section HandlerFacts.
Context `{L : Libm} `{B : Builtins}.
Import HospitalFinder.

Lemma py_float_raises v : raises_Exception (py_float v).
Proof.
  destruct v; simpl; try (by intros e [= <-]).
  - apply float_of_Z_raises.
  - case_match; by intros e [= <-].
Qed.

Lemma distance_of_total lat lng lat_res lng_res :
  ∃ d, distance_of lat lng lat_res lng_res = Ok d.
Proof.
  unfold distance_of. case_match; [|eauto].
  unfold try_except_Exception. case_match eqn:Hbody; [eauto|].
  assert (is_Exception e = true) as ->; [|eauto].
  revert Hbody. apply raises_Exception_bind; [apply py_float_raises|].
  intros a. apply raises_Exception_bind; [apply py_float_raises|].
  intros b e' He'.
  destruct (haversine_returns (VFloat lat) (VFloat lng) (VFloat a) (VFloat b))
    as [r Hr].
  congruence.
Qed.

Lemma derive_record_total lat lng i feat :
  ∃ r, derive_record lat lng i feat = Ok r.
Proof.
  unfold derive_record. destruct (lng_lat (coords_of feat)) as [lng_res lat_res].
  case_match; [eauto|].
  destruct (distance_of_total lat lng lat_res lng_res) as [d ->]. simpl. eauto.
Qed.

(** The loop building [hospitals_all] always completes. *)
Lemma derive_records_total lat lng i features :
  ∃ source, derive_records lat lng i features = Ok source.
Proof.
  revert i. induction features as [|feat rest IH]; intros i; simpl; [eauto|].
  destruct (derive_record_total lat lng i feat) as [r ->].
  destruct (IH (S i)) as [rs ->]. simpl. eauto.
Qed.

(** A feature with a usable name. *)
Definition usable (feat : feature) : bool :=
  PyStr.truthy
    (or_str (prop_name (default no_properties (feat_properties feat))) "").

Lemma derive_records_unusable lat lng i features :
  Forall (λ feat, usable feat = false) features →
  derive_records lat lng i features = Ok [].
Proof.
  intros Hall. revert i.
  induction Hall as [|feat rest Hfeat Hall IH]; intros i; simpl; [done|].
  unfold derive_record.
  destruct (lng_lat (coords_of feat)) as [lng_res lat_res].
  unfold usable in Hfeat. rewrite Hfeat. simpl. by rewrite IH.
Qed.

(** Every derived record has a distance that [format_distance] can
    print. *)
Definition printable (h : Facility.t) : Prop :=
  match Facility.distance_km h with
  | Some dk => moderate dk
  | None => True
  end.

Lemma distance_of_moderate lat lng lat_res lng_res dk :
  distance_of lat lng lat_res lng_res = Ok (Some dk) → moderate dk.
Proof.
  unfold distance_of. case_match; [|done].
  unfold try_except_Exception. case_match eqn:Hbody; [|by case_match].
  intros [= ->].
  apply bind_Ok_inv in Hbody as (a & _ & Hbody).
  apply bind_Ok_inv in Hbody as (b & _ & Hbody).
  by eapply haversine_moderate.
Qed.

Lemma derive_record_printable lat lng i feat h :
  derive_record lat lng i feat = Ok (Some h) → printable h.
Proof.
  unfold derive_record. destruct (lng_lat (coords_of feat)) as [lng_res lat_res].
  case_match; [done|].
  destruct (distance_of lat lng lat_res lng_res) as [d|] eqn:Hd; simpl; [|done].
  intros [= <-]. unfold printable. simpl.
  destruct d as [dk|]; [|done]. by eapply distance_of_moderate.
Qed.

Lemma derive_records_printable lat lng i features source :
  derive_records lat lng i features = Ok source → Forall printable source.
Proof.
  revert i source.
  induction features as [|feat rest IH]; intros i source; simpl.
  { intros [= <-]. constructor. }
  intros (r & Hr & H)%bind_Ok_inv. apply bind_Ok_inv in H as (rs & Hrs & H).
  injection H as <-. apply IH in Hrs.
  destruct r as [h|]; [|done]. constructor; [|done].
  by eapply derive_record_printable.
Qed.

Lemma format_distance_total h :
  printable h → ∃ s, format_distance h = Ok s.
Proof.
  unfold printable, format_distance.
  destruct (Facility.distance_km h) as [dk|]; [|eauto].
  intros [-> | Hfin]; [simpl; eauto|].
  case_match; [|eauto].
  destruct (int_of_float_fin_le (dk * 1000)%float (-23)) as [n ->]; [|simpl; eauto].
  apply (mul_fin_le _ _ (-34) (-43)); [done|by vm_compute|done..].
Qed.

(** The loop building [results] completes on derived records. *)
Lemma render_total recs :
  Forall printable recs → ∃ hs, render recs = Ok hs.
Proof.
  induction 1 as [|h rest Hh _ [vs IH]]; simpl; [eauto|].
  unfold view. destruct (format_distance_total h Hh) as [s ->]. simpl.
  rewrite IH. simpl. eauto.
Qed.

Lemma select_printable department hospitals_all :
  Forall printable hospitals_all →
  Forall printable (select department hospitals_all).1.
Proof.
  intros Hall. rewrite Forall_forall in Hall |- *. intros h Hh.
  apply Hall. eapply elem_of_sublist; [done|apply select_sublist].
Qed.

Lemma sort_by_distance_printable source :
  Forall printable source → Forall printable (sort_by_distance source).
Proof. by rewrite sort_by_distance_Permutation. Qed.

(** What the handler does once the provider has answered. *)
Lemma nearby_hospitals_served key provider args lat lng department params
    features source :
  fetch key provider args = Features lat lng department params features →
  derive_records lat lng 0 features = Ok source →
  nearby_hospitals key provider args
  = {| result :=
         respond (select department (sort_by_distance source)).1
           (select department (sort_by_distance source)).2;
       outbound := [params] |}.
Proof.
  intros Hfetch Hsrc. unfold nearby_hospitals, candidates.
  rewrite Hfetch, Hsrc. simpl.
  by destruct (select department (sort_by_distance source)).
Qed.

Lemma respond_inv recs fb st hs fb' :
  respond recs fb = Responded st (HospitalsBody hs fb') →
  st = 200%Z ∧ fb' = fb ∧ render recs = Ok hs.
Proof.
  unfold respond. destruct (render recs); [|done]. by intros [= <- <- <-].
Qed.

Lemma respond_printable recs fb :
  Forall printable recs →
  ∃ hs, render recs = Ok hs
        ∧ respond recs fb = Responded 200 (HospitalsBody hs fb).
Proof.
  intros [hs Hhs]%render_total. exists hs. split; [done|].
  unfold respond. by rewrite Hhs.
Qed.

(** Once the provider has answered, the handler answers 200 with a list of
    hospitals. *)
Lemma nearby_hospitals_responds key provider args lat lng department params
    features :
  fetch key provider args = Features lat lng department params features →
  ∃ hs fb,
    nearby_hospitals key provider args
    = {| result := Responded 200 (HospitalsBody hs fb);
         outbound := [params] |}.
Proof.
  intros Hfetch.
  destruct (derive_records_total lat lng 0 features) as [source Hsrc].
  rewrite (nearby_hospitals_served _ _ _ _ _ _ _ _ _ Hfetch Hsrc).
  edestruct respond_printable as (hs & _ & ->); [|eauto].
  apply select_printable, sort_by_distance_printable.
  by eapply derive_records_printable.
Qed.

(** The response lists the rendered records one for one, in order. *)
Lemma render_names recs hs :
  render recs = Ok hs →
  FacilityView.id <$> hs = Facility.id <$> recs
  ∧ FacilityView.name <$> hs = Facility.name <$> recs.
Proof.
  revert hs. induction recs as [|h rest IH]; intros hs; simpl.
  { by intros [= <-]. }
  unfold view. destruct (format_distance h); simpl; [|done].
  destruct (render rest) as [vs|]; simpl; [|done].
  intros [= <-]. destruct (IH vs eq_refl) as [IH1 IH2].
  by rewrite !fmap_cons, IH1, IH2.
Qed.

Lemma view_Ok h v :
  view h = Ok v →
  format_distance h = Ok (FacilityView.distance v)
  ∧ FacilityView.id v = Facility.id h
  ∧ FacilityView.name v = Facility.name h
  ∧ FacilityView.address v = Facility.address h
  ∧ FacilityView.lat v = Facility.lat h
  ∧ FacilityView.lng v = Facility.lng h
  ∧ FacilityView.emergency v = Facility.emergency h
  ∧ FacilityView.phone v = Facility.phone h
  ∧ FacilityView.specialties v = Facility.specialties h
  ∧ FacilityView.has_specialties v = Facility.has_specialties h
  ∧ FacilityView.rating v
    = round1 (if float_truthy (Facility.rating h) then Facility.rating h
              else 4.5%float).
Proof.
  unfold view. destruct (format_distance h) as [s|]; simpl; [|done].
  by intros [= <-].
Qed.

(** The response entry [v] is the rendering of the record [h]: the fields
    are copied, the rating is rounded and the distance is formatted. *)
Definition shows (h : Facility.t) (v : FacilityView.t) : Prop :=
  FacilityView.id v = Facility.id h
  ∧ FacilityView.name v = Facility.name h
  ∧ FacilityView.address v = Facility.address h
  ∧ FacilityView.lat v = Facility.lat h
  ∧ FacilityView.lng v = Facility.lng h
  ∧ FacilityView.emergency v = Facility.emergency h
  ∧ FacilityView.phone v = Facility.phone h
  ∧ FacilityView.specialties v = Facility.specialties h
  ∧ FacilityView.has_specialties v = Facility.has_specialties h
  ∧ FacilityView.rating v
    = round1 (if float_truthy (Facility.rating h) then Facility.rating h
              else 4.5%float)
  ∧ format_distance h = Ok (FacilityView.distance v).

(** The response has one entry for each rendered record, in order. *)
Lemma render_shows recs hs : render recs = Ok hs → Forall2 shows recs hs.
Proof.
  revert hs. induction recs as [|h rest IH]; intros hs; simpl.
  { intros [= <-]. constructor. }
  intros (v & Hv & H)%bind_Ok_inv. apply bind_Ok_inv in H as (vs & Hvs & H).
  injection H as <-. constructor; [|by apply IH].
  apply view_Ok in Hv. unfold shows. tauto.
Qed.

End HandlerFacts.

(** The specialties the inference can produce, in rule order. *)
Definition all_specialties : list string :=
  ["Cardiology"; "Gastroenterology"; "Neurology"; "Dermatology"; "ENT";
   "Orthopedics"; "Dental"; "Surgery"].

(** A coordinate parameter that is missing or does not parse as a float. *)
Definition unparsable `{B : Builtins} (o : option string) : Prop :=
  match o with
  | None => True
  | Some s => float_of_str s = None
  end.

Section Claims.
Context `{L : Libm} `{B : Builtins}.
Import HospitalFinder.

Lemma sublist_rule (c : bool) (s : string) (l k : list string) :
  l `sublist_of` k → (if c then [s] else []) ++ l `sublist_of` s :: k.
Proof. destruct c; simpl; by constructor. Qed.

Lemma infer_specialties_sublist cats_lower name_lower :
  infer_specialties cats_lower name_lower `sublist_of` all_specialties.
Proof.
  unfold infer_specialties, all_specialties. cbv zeta.
  do 7 apply sublist_rule. case_match; by repeat constructor.
Qed.

Lemma derive_record_specialties lat lng i feat h :
  derive_record lat lng i feat = Ok (Some h) →
  Facility.specialties h `sublist_of` all_specialties.
Proof.
  unfold derive_record. destruct (lng_lat (coords_of feat)) as [lng_res lat_res].
  case_match; [done|].
  destruct (distance_of lat lng lat_res lng_res); simpl; [|done].
  intros [= <-]. simpl. apply infer_specialties_sublist.
Qed.

Lemma no_specialty_mentions_emergency :
  Forall (λ s, PyStr.contains "emergency" (PyStr.lower s) = false)
    all_specialties.
Proof. repeat constructor. Qed.

(** C10: the specialties of a derived record form a subsequence of the
    fixed list; none of those names contains "emergency"; hence for the
    department "emergency" (in any letter case) the filter is the record's
    emergency flag. *)
Theorem emergency_filter_is_flag lat lng i feat h :
  derive_record lat lng i feat = Ok (Some h) →
  Facility.specialties h `sublist_of` all_specialties
  ∧ Forall (λ s, PyStr.contains "emergency" (PyStr.lower s) = false)
      all_specialties
  ∧ ∀ dept, PyStr.lower dept = "emergency" →
            matches_department h dept = Facility.emergency h.
Proof.
  intros Hh. pose proof (derive_record_specialties _ _ _ _ _ Hh) as Hsub.
  split; [done|]. split; [apply no_specialty_mentions_emergency|].
  intros dept Hdept. unfold matches_department.
  assert (PyStr.truthy dept = true) as -> by (by destruct dept).
  simpl. rewrite Hdept. simpl.
  assert (PyStr.any (λ s, PyStr.contains "emergency" (PyStr.lower s))
            (Facility.specialties h) = false) as ->;
    [|by rewrite orb_false_r].
  unfold PyStr.any. apply not_true_is_false.
  intros (s & Hs & Hc)%existsb_exists.
  apply list_elem_of_In in Hs.
  pose proof no_specialty_mentions_emergency as Hnone.
  rewrite Forall_forall in Hnone.
  rewrite Hnone in Hc; [done|]. by eapply elem_of_sublist.
Qed.

(** C5: when [lat] or [lng] is missing or does not parse as a float, the
    response is the 400 error and no request goes to the provider. *)
Theorem invalid_coordinates_rejected key provider args :
  unparsable (arg_lat args) ∨ unparsable (arg_lng args) →
  nearby_hospitals key provider args
  = {| result :=
         Responded 400 (ErrorBody "lat and lng query params required" None);
       outbound := [] |}.
Proof.
  unfold nearby_hospitals, fetch, parse_coord, unparsable.
  destruct (arg_lat args) as [s|]; [|done].
  destruct (float_of_str s) as [lat|]; [|done]. simpl.
  destruct (arg_lng args) as [t|]; [|done].
  destruct (float_of_str t) as [lng|]; [|done].
  by intros [|].
Qed.

(** C8 (amended): when [lat] and [lng] parse and [radius_m] is a non-empty
    string that is not an integer, the handler raises [ValueError]; this
    happens whether or not a key is configured, and no request goes to the
    provider. *)
Theorem unparsable_radius_raises key provider args lat lng s :
  parse_coord (arg_lat args) = Ok lat →
  parse_coord (arg_lng args) = Ok lng →
  arg_radius_m args = Some s → s ≠ "" → int_of_str s = None →
  nearby_hospitals key provider args
  = {| result := Raised ValueError; outbound := [] |}.
Proof.
  intros Hlat Hlng Hr Hs Hint. unfold nearby_hospitals, fetch, parse_radius.
  rewrite Hlat, Hlng, Hr. simpl. destruct s; [done|]. simpl.
  by rewrite Hint.
Qed.

(** C1, where the code keeps it: when no candidate has a NaN distance, the
    handler answers with the rendering of records that are in distance order
    (known before unknown, known distances non-decreasing) and in which
    records that compare equal keep the order of the provider's features;
    this holds for the filtered list and for the fallback list. *)
Theorem response_in_distance_order key provider args lat lng department
    params features source :
  fetch key provider args = Features lat lng department params features →
  derive_records lat lng 0 features = Ok source →
  Forall distance_not_nan source →
  let recs := (select department (sort_by_distance source)).1 in
  ∃ hs fb,
    result (nearby_hospitals key provider args)
    = Responded 200 (HospitalsBody hs fb)
    ∧ render recs = Ok hs
    ∧ in_distance_order source recs.
Proof.
  intros Hfetch Hsrc Hok recs.
  rewrite (nearby_hospitals_served _ _ _ _ _ _ _ _ _ Hfetch Hsrc). simpl.
  edestruct (respond_printable recs) as (hs & Hhs & ->).
  { apply select_printable, sort_by_distance_printable.
    by eapply derive_records_printable. }
  exists hs, (select department (sort_by_distance source)).2.
  split; [done|]. split; [done|].
  eapply in_distance_order_sublist; [apply select_sublist|].
  by apply sort_by_distance_order.
Qed.

(** C2: with a department requested, if no sorted candidate matches it the
    handler answers with [fallback_used = true] and one entry for each of
    the first 15 sorted candidates, in order; when no candidate has a NaN
    distance these are the nearest: they are in distance order and none of
    them is farther than a candidate that was left out.  If some candidate
    matches, it answers with [fallback_used = false] and one entry for each
    matching candidate, in sorted order.  The sorted list holds the
    candidates, each once. *)
Theorem department_filter_or_fallback key provider args lat lng department
    params features source :
  fetch key provider args = Features lat lng department params features →
  derive_records lat lng 0 features = Ok source →
  department ≠ "" →
  let sorted := sort_by_distance source in
  let matching := filter (λ h, matches_department h department = true) sorted in
  let r := nearby_hospitals key provider args in
  outbound r = [params]
  ∧ sorted ≡ₚ source
  ∧ (matching = [] →
     ∃ hs, render (take 15 sorted) = Ok hs
           ∧ result r = Responded 200 (HospitalsBody hs true)
           ∧ Forall2 shows (take 15 sorted) hs
           ∧ (Forall distance_not_nan source →
              in_distance_order source (take 15 sorted)
              ∧ ∀ a b, a ∈ take 15 sorted → b ∈ drop 15 sorted →
                       distance_le a b))
  ∧ (matching ≠ [] →
     ∃ hs, render matching = Ok hs
           ∧ result r = Responded 200 (HospitalsBody hs false)
           ∧ Forall2 shows matching hs
           ∧ matching `sublist_of` sorted
           ∧ (Forall distance_not_nan source →
              in_distance_order source matching)).
Proof.
  intros Hfetch Hsrc Hdept sorted matching.
  rewrite (nearby_hospitals_served _ _ _ _ _ _ _ _ _ Hfetch Hsrc). simpl.
  split; [done|]. split; [apply sort_by_distance_Permutation|].
  assert (Forall printable sorted) as Hsorted.
  { apply sort_by_distance_printable. by eapply derive_records_printable. }
  pose proof (select_printable department _ Hsorted) as Hsel.
  fold sorted. revert Hsel. unfold select. fold matching.
  assert (PyStr.truthy department = true) as -> by (by destruct department).
  simpl. split.
  - intros Hnil. revert Hsel. rewrite Hnil. simpl. intros Hsel.
    destruct (respond_printable _ true Hsel) as (hs & Hhs & Hr).
    exists hs. split; [done|]. split; [done|].
    split; [by apply render_shows|]. intros Hok. split.
    + eapply in_distance_order_sublist; [apply sublist_take|].
      by apply sort_by_distance_order.
    + intros a b. by apply fallback_takes_nearest.
  - intros Hne. revert Hsel. rewrite bool_decide_eq_false_2
      by (by intros ?%nil_length_inv). simpl. intros Hsel.
    destruct (respond_printable _ false Hsel) as (hs & Hhs & Hr).
    exists hs. split; [done|]. split; [done|].
    split; [by apply render_shows|]. split; [apply sublist_filter|].
    intros Hok. eapply in_distance_order_sublist; [apply sublist_filter|].
    by apply sort_by_distance_order.
Qed.

(** C9: with a department requested and no usable feature in the provider's
    answer, the response is the empty list with [fallback_used = true]. *)
Theorem empty_candidates_fallback key provider args lat lng department
    params features :
  fetch key provider args = Features lat lng department params features →
  Forall (λ feat, usable feat = false) features →
  department ≠ "" →
  nearby_hospitals key provider args
  = {| result := Responded 200 (HospitalsBody [] true);
       outbound := [params] |}.
Proof.
  intros Hfetch Hnone Hdept.
  rewrite (nearby_hospitals_served _ _ _ _ _ _ _ _ [] Hfetch)
    by by apply derive_records_unusable.
  unfold select.
  by assert (PyStr.truthy department = true) as -> by (by destruct department).
Qed.

End Claims.


(** ** Distance calculator: exceptions, null and NaN *)

(** An argument that is not a finite number: not a number at all, or a
    float that is NaN or infinite. *)
Definition degenerate (v : pyval) : bool :=
  match v with
  | VFloat f => negb (is_finite f)
  | _ => non_numeric v
  end.

Definition infinite_float (v : pyval) : bool :=
  match v with
  | VFloat f => is_infinity f
  | _ => false
  end.

Lemma is_infinity_cases (f : float) :
  is_infinity f = true → f = infinity ∨ f = neg_infinity.
Proof.
  unfold is_infinity. rewrite FloatAxioms.eqb_spec, abs_spec.
  intros H.
  assert (∃ s, Prim2SF f = S754_infinity s) as [s Hs].
  { destruct (Prim2SF f) as [| s | |]; try done. eauto. }
  destruct s; [right|left]; apply Prim2SF_inj; by rewrite Hs.
Qed.

Lemma bind_raises {A B} (m : exc A) (k : A → exc B) :
  (∀ a, ∃ e, k a = Raise e) → ∃ e, m ≫= k = Raise e.
Proof. intros Hk. destruct m; simpl; eauto. Qed.

Section DistanceClaims.
Context `{L : Libm}.

Lemma haversine_body_infinite_lat1 f b c d :
  f = infinity ∨ f = neg_infinity →
  ∃ e, haversine_body (VFloat f) b c d = Raise e.
Proof.
  pose proof cos_infinity as Hp. pose proof cos_neg_infinity as Hn.
  cbv [infinity neg_infinity] in Hp, Hn.
  intros [-> | ->]; unfold haversine_body; cbn;
    do 5 (apply bind_raises; intros ?; cbn);
    rewrite ?Hp, ?Hn; cbn; eauto.
Qed.

Lemma haversine_body_infinite_lat2 a b f d :
  f = infinity ∨ f = neg_infinity →
  ∃ e, haversine_body a b (VFloat f) d = Raise e.
Proof.
  pose proof cos_infinity as Hp. pose proof cos_neg_infinity as Hn.
  cbv [infinity neg_infinity] in Hp, Hn.
  intros [-> | ->]; unfold haversine_body;
    do 2 (apply bind_raises; intros ?; cbn);
    do 4 (apply bind_raises; intros ?; cbn);
    rewrite ?Hp, ?Hn; cbn; eauto.
Qed.

Lemma haversine_nan_latitude :
  haversine_distance_km (VFloat nan) (VFloat 0) (VFloat 0) (VFloat 0)
  = Ok (Some nan).
Proof.
  pose proof sin_nan as Hs. pose proof cos_nan as Hc.
  pose proof asin_nan as Ha. cbv [nan] in Hs, Hc, Ha.
  unfold haversine_distance_km, haversine_body. cbn.
  rewrite Hs. cbn. rewrite Hc, cos_zero, sin_zero. cbn. by rewrite Ha.
Qed.

(** The distance from a point to itself is zero. *)
Lemma haversine_origin :
  haversine_distance_km (VFloat 0) (VFloat 0) (VFloat 0) (VFloat 0)
  = Ok (Some 0%float).
Proof.
  unfold haversine_distance_km, haversine_body. cbn.
  rewrite sin_zero. cbn. rewrite cos_zero. cbn. by rewrite asin_zero.
Qed.

(** One infinite longitude makes [sin] raise, hence null; two equal
    infinite longitudes cancel into NaN, which nothing rejects. *)
Lemma haversine_infinite_longitude :
  haversine_distance_km (VFloat 0) (VFloat infinity) (VFloat 0) (VFloat 0)
  = Ok None.
Proof.
  pose proof (proj2 c_sin_inf) as Hn.
  unfold haversine_distance_km, haversine_body. cbn.
  rewrite sin_zero. cbn. rewrite cos_zero. cbn.
  unfold PyMath.sin, PyMath.math_1. cbv [neg_infinity] in Hn.
  by rewrite Hn.
Qed.

Lemma haversine_infinite_longitudes :
  haversine_distance_km (VFloat 0) (VFloat infinity) (VFloat 0)
    (VFloat infinity)
  = Ok (Some nan).
Proof.
  pose proof sin_nan as Hs. pose proof asin_nan as Ha. cbv [nan] in Hs, Ha.
  unfold haversine_distance_km, haversine_body. cbn.
  rewrite sin_zero. cbn. rewrite cos_zero. cbn. rewrite Hs. cbn.
  by rewrite Ha.
Qed.

(** C4 (amended): the function never raises; it returns null when an
    argument is not a number and when a latitude is infinite; a NaN
    argument raises nothing and is not turned into null: with the other
    arguments zero the result is the float NaN. *)
Theorem haversine_never_raises_nan_kept :
  (∀ a b c d, ∃ r, haversine_distance_km a b c d = Ok r)
  ∧ (∀ a b c d,
       non_numeric a || non_numeric b || non_numeric c || non_numeric d = true →
       haversine_distance_km a b c d = Ok None)
  ∧ (∀ a b c d,
       infinite_float a || infinite_float c = true →
       haversine_distance_km a b c d = Ok None)
  ∧ haversine_distance_km (VFloat nan) (VFloat 0) (VFloat 0) (VFloat 0)
    = Ok (Some nan).
Proof.
  split; [apply haversine_returns|].
  split; [|split; [|apply haversine_nan_latitude]].
  - intros a b c d H. by apply haversine_None_iff, haversine_body_non_numeric.
  - intros a b c d [Ha|Hc]%orb_true_iff; apply haversine_None_iff.
    + destruct a; try done.
      by apply haversine_body_infinite_lat1, is_infinity_cases.
    + destruct c; try done.
      by apply haversine_body_infinite_lat2, is_infinity_cases.
Qed.

End DistanceClaims.

(** ** Triage evaluator: ranges, invariance, keyword matching *)

Lemma lower_ascii_idemp c : PyStr.lower_ascii (PyStr.lower_ascii c) = PyStr.lower_ascii c.
Proof. by destruct c as [[] [] [] [] [] [] [] []]. Qed.

Lemma lower_idemp s : PyStr.lower (PyStr.lower s) = PyStr.lower s.
Proof. induction s as [|c s IH]; simpl; [done|]. by rewrite lower_ascii_idemp, IH. Qed.

Lemma truthy_lower s : PyStr.truthy (PyStr.lower s) = PyStr.truthy s.
Proof. by destruct s. Qed.

(** The rank of a concern level: low, moderate, high. *)
Definition concern_rank (c : string) : nat :=
  if String.eqb c "high" then 2
  else if String.eqb c "moderate" then 1
  else 0.

(** All the keywords of the department chain. *)
Definition department_keywords : list string :=
  Triage.gastro_keywords ++ Triage.cardio_keywords ++ Triage.pulmo_keywords
  ++ Triage.neuro_keywords ++ Triage.derma_keywords.

Section TriageMore.
Import Triage.

Lemma concern_cases r :
  concern r = "low" ∨ concern r = "moderate" ∨ concern r = "high".
Proof. unfold concern. repeat case_match; auto. Qed.

Lemma dept_cases r :
  dept r = "Gastroenterology" ∨ dept r = "Cardiology" ∨ dept r = "Pulmonology"
  ∨ dept r = "Neurology" ∨ dept r = "Dermatology" ∨ dept r = "Primary Care".
Proof. unfold dept. cbv zeta. repeat case_match; auto 10. Qed.

Lemma any_in_spec ks syms :
  any_in ks (lower_symptoms syms) = true ↔
  ∃ s, s ∈ syms ∧ PyStr.lower s ∈ ks.
Proof.
  unfold any_in, PyStr.any, mem, lower_symptoms. rewrite existsb_exists. split.
  - intros (k & Hk & Hin). apply bool_decide_eq_true in Hin.
    apply elem_of_list_to_set, list_elem_of_fmap in Hin as (s & -> & Hs).
    exists s. split; [done|]. by apply list_elem_of_In.
  - intros (s & Hs & Hk). exists (PyStr.lower s).
    split; [by apply list_elem_of_In|].
    apply bool_decide_eq_true, elem_of_list_to_set, list_elem_of_fmap. eauto.
Qed.

(** X1: the recommended departments are one or two distinct names;
    "Emergency" is among them exactly when the concern is high, and then it
    comes first; "General Medicine" (resp. "Primary Care") is listed exactly
    when no keyword gave a department and the concern is moderate
    (resp. low). *)
Theorem recommended_departments_shape (r : symptom_report) :
  let a := assess r in
  let l := recommended_departments a in
  concern_level a ∈ ["low"; "moderate"; "high"]
  ∧ 1 ≤ length l ≤ 2 ∧ NoDup l
  ∧ ("Emergency" ∈ l ↔ concern_level a = "high")
  ∧ (concern_level a = "high" → l !! 0 = Some "Emergency")
  ∧ ("General Medicine" ∈ l ↔
     concern_level a = "moderate" ∧ dept r = "Primary Care")
  ∧ ("Primary Care" ∈ l ↔ concern_level a = "low" ∧ dept r = "Primary Care").
Proof.
  cbv zeta. simpl.
  destruct (concern_cases r) as [Hc|[Hc|Hc]];
    destruct (dept_cases r) as [Hd|[Hd|[Hd|[Hd|[Hd|Hd]]]]];
    rewrite Hc, Hd; apply (bool_decide_unpack _); vm_compute; exact I.
Qed.

(** X2: reporting more symptoms never lowers the concern level. *)
Theorem more_symptoms_no_lower_concern (syms syms' : list string)
    (sev dur : string) :
  syms `sublist_of` syms' →
  concern_rank
    (concern_level
       (assess {| symptoms := syms; severity := sev; duration := dur |}))
  ≤ concern_rank
      (concern_level
         (assess {| symptoms := syms'; severity := sev; duration := dur |})).
Proof.
  intros Hsub. simpl. unfold concern.
  set (r := {| symptoms := syms; severity := sev; duration := dur |}).
  set (r' := {| symptoms := syms'; severity := sev; duration := dur |}).
  assert (has_red_flag r = true → has_red_flag r' = true) as Hred.
  { rewrite !has_red_flag_spec. intros (s & Hs & Hk). exists s.
    split; [|done]. by eapply elem_of_sublist. }
  assert (many_symptoms r = true → many_symptoms r' = true) as Hmany.
  { unfold many_symptoms. rewrite !bool_decide_eq_true. simpl.
    apply sublist_length in Hsub. lia. }
  change (is_severe r') with (is_severe r).
  change (moderate_or_lasting r') with (moderate_or_lasting r).
  destruct (has_red_flag r); [by rewrite Hred|].
  destruct (has_red_flag r'); [repeat case_match; vm_compute; lia|].
  destruct (is_severe r); [done|].
  destruct (moderate_or_lasting r); [done|].
  destruct (many_symptoms r); [by rewrite Hmany|].
  case_match; vm_compute; lia.
Qed.

(** X3: the assessment depends on the symptoms only through their
    lower-cased forms, up to order: two reports whose lower-cased symptom
    lists are permutations of each other get the same assessment. *)
Theorem assess_ignores_case_and_order (syms syms' : list string)
    (sev dur : string) :
  PyStr.lower <$> syms ≡ₚ PyStr.lower <$> syms' →
  assess {| symptoms := syms; severity := sev; duration := dur |}
  = assess {| symptoms := syms'; severity := sev; duration := dur |}.
Proof.
  intros Hperm.
  assert (lower_symptoms syms = lower_symptoms syms') as Hset.
  { unfold lower_symptoms. by rewrite Hperm. }
  assert (length syms = length syms') as Hlen.
  { apply Permutation_length in Hperm. by rewrite !length_fmap in Hperm. }
  unfold assess, concern, dept, has_red_flag, many_symptoms. simpl.
  by rewrite Hset, Hlen.
Qed.

(** X4: a symptom counts for a department only when, lower-cased, it is
    one of the keywords as a whole string: the department is "Primary Care"
    exactly when no reported symptom is. *)
Theorem primary_care_iff_no_keyword (r : symptom_report) :
  dept r = "Primary Care" ↔
  ∀ s, s ∈ symptoms r → PyStr.lower s ∉ department_keywords.
Proof.
  unfold dept, department_keywords. cbv zeta.
  destruct (any_in gastro_keywords _) eqn:Hg.
  { split; [done|]. apply any_in_spec in Hg as (s & Hs & Hk).
    intros H. destruct (H s Hs). rewrite !elem_of_app. auto. }
  destruct (any_in cardio_keywords _) eqn:Hc.
  { split; [done|]. apply any_in_spec in Hc as (s & Hs & Hk).
    intros H. destruct (H s Hs). rewrite !elem_of_app. auto. }
  destruct (any_in pulmo_keywords _) eqn:Hp.
  { split; [done|]. apply any_in_spec in Hp as (s & Hs & Hk).
    intros H. destruct (H s Hs). rewrite !elem_of_app. auto. }
  destruct (any_in neuro_keywords _) eqn:Hn.
  { split; [done|]. apply any_in_spec in Hn as (s & Hs & Hk).
    intros H. destruct (H s Hs). rewrite !elem_of_app. auto. }
  destruct (any_in derma_keywords _) eqn:Hd.
  { split; [done|]. apply any_in_spec in Hd as (s & Hs & Hk).
    intros H. destruct (H s Hs). rewrite !elem_of_app. auto. }
  split; [|done]. intros _ s Hs. rewrite !elem_of_app.
  intros [Hk|[Hk|[Hk|[Hk|Hk]]]].
  - apply not_true_iff_false in Hg. apply Hg, any_in_spec. eauto.
  - apply not_true_iff_false in Hc. apply Hc, any_in_spec. eauto.
  - apply not_true_iff_false in Hp. apply Hp, any_in_spec. eauto.
  - apply not_true_iff_false in Hn. apply Hn, any_in_spec. eauto.
  - apply not_true_iff_false in Hd. apply Hd, any_in_spec. eauto.
Qed.

End TriageMore.

(** ** Hospital finder: the request *)

(** The [department] parameter is missing, empty or only white space. *)
Definition blank_department (args : query_args) : Prop :=
  match arg_department args with
  | None => True
  | Some s => PyStr.strip s = ""
  end.

Section RequestFacts.
Context `{L : Libm} `{B : Builtins}.
Import HospitalFinder.

Lemma parse_coord_Raise o e :
  parse_coord o = Raise e → unparsable o ∧ (e = TypeError ∨ e = ValueError).
Proof.
  unfold parse_coord, unparsable. destruct o as [s|]; [|intros [= <-]; auto].
  destruct (float_of_str s); [done|]. intros [= <-]. auto.
Qed.

Lemma parse_coord_Ok o f : unparsable o → parse_coord o = Ok f → False.
Proof.
  unfold parse_coord, unparsable. destruct o as [s|]; [|done].
  by intros ->.
Qed.

Lemma parse_radius_Raise o e : parse_radius o = Raise e → e = ValueError.
Proof. unfold parse_radius. repeat case_match; congruence. Qed.

Lemma truthy_false s : PyStr.truthy s = false → s = "".
Proof. by destruct s. Qed.

Lemma or_str_truthy o k : PyStr.truthy (or_str o "") = true → or_str o "" = k → o = Some k ∧ k ≠ "".
Proof.
  unfold or_str. destruct o as [s|]; [|done].
  destruct (PyStr.truthy s) eqn:Hs; [|done].
  intros _ ->. split; [done|]. by intros ->.
Qed.

(** The ways through the first half of the handler. *)
Lemma fetch_cases key provider args :
  (fetch key provider args
   = Finished
       {| result :=
            Responded 400 (ErrorBody "lat and lng query params required" None);
          outbound := [] |}
   ∧ (unparsable (arg_lat args) ∨ unparsable (arg_lng args)))
  ∨ ∃ lat lng,
      parse_coord (arg_lat args) = Ok lat ∧ parse_coord (arg_lng args) = Ok lng
      ∧ ((fetch key provider args
          = Finished {| result := Raised ValueError; outbound := [] |}
          ∧ parse_radius (arg_radius_m args) = Raise ValueError)
         ∨ ∃ radius_m,
             parse_radius (arg_radius_m args) = Ok radius_m
             ∧ ((fetch key provider args
                 = Finished
                     {| result :=
                          Responded 500
                            (ErrorBody "Geoapify API key not configured" None);
                        outbound := [] |}
                 ∧ or_str key "" = "")
                ∨ ∃ k, key = Some k ∧ k ≠ ""
                  ∧ let params :=
                      places_params k (requested_department args) lat lng
                        radius_m in
                    (∃ details,
                       provider params = ProviderError details
                       ∧ fetch key provider args
                         = Finished
                             {| result :=
                                  Responded 500
                                    (ErrorBody
                                       "Failed to fetch hospitals from Geoapify"
                                       (Some details));
                                outbound := [params] |})
                    ∨ (∃ fo,
                         provider params = ProviderData fo
                         ∧ fetch key provider args
                           = Features lat lng (requested_department args)
                               params (default [] fo)))).
Proof.
  unfold fetch.
  destruct (parse_coord (arg_lat args)) as [lat|e1] eqn:Hlat; simpl.
  2:{ left. apply parse_coord_Raise in Hlat as [? [-> | ->]]; auto. }
  destruct (parse_coord (arg_lng args)) as [lng|e2] eqn:Hlng; simpl.
  2:{ left. apply parse_coord_Raise in Hlng as [? [-> | ->]]; auto. }
  right. exists lat, lng. split; [done|]. split; [done|].
  destruct (parse_radius (arg_radius_m args)) as [radius_m|e3] eqn:Hrad.
  2:{ left. apply parse_radius_Raise in Hrad as ->. auto. }
  right. exists radius_m. split; [done|].
  destruct (PyStr.truthy (or_str key "")) eqn:Hkey; simpl.
  2:{ left. split; [done|]. by apply truthy_false. }
  right. destruct (or_str_truthy key _ Hkey eq_refl) as [Hk Hne].
  exists (or_str key ""). split; [done|]. split; [done|]. cbv zeta.
  destruct (provider _) as [fo|details]; eauto.
Qed.

Lemma fetch_Features_inv key provider args lat lng department params features :
  fetch key provider args = Features lat lng department params features →
  ∃ k radius_m fo,
    key = Some k ∧ k ≠ ""
    ∧ parse_coord (arg_lat args) = Ok lat
    ∧ parse_coord (arg_lng args) = Ok lng
    ∧ parse_radius (arg_radius_m args) = Ok radius_m
    ∧ department = requested_department args
    ∧ params = places_params k department lat lng radius_m
    ∧ provider params = ProviderData fo
    ∧ features = default [] fo.
Proof.
  intros Hf.
  destruct (fetch_cases key provider args)
    as [[H _]|(lat' & lng' & Hlat & Hlng &
               [[H _]|(radius_m & Hrad &
                 [[H _]|(k & Hk & Hne & [(d & _ & H)|(fo & Hp & H)])])])];
    rewrite H in Hf; try done.
  injection Hf as <- <- <- <- <-. exists k, radius_m, fo. done.
Qed.

(** X5: how a request ends before the provider's data is read.  A request
    that ends without a request to the provider ended in one of three ways:
    400, because [lat] or [lng] does not parse; an uncaught [ValueError],
    because [radius_m] does not parse; or 500, because the key is unset.  A
    request whose call to the provider fails is answered 500 with the
    details of the failure, after that single call. *)
Theorem outcomes_before_provider_data key provider args :
  let r := nearby_hospitals key provider args in
  (outbound r = [] →
   (r = {| result :=
             Responded 400
               (ErrorBody "lat and lng query params required" None);
           outbound := [] |}
    ∧ (unparsable (arg_lat args) ∨ unparsable (arg_lng args)))
   ∨ (r = {| result := Raised ValueError; outbound := [] |}
      ∧ parse_radius (arg_radius_m args) = Raise ValueError)
   ∨ (r = {| result :=
               Responded 500
                 (ErrorBody "Geoapify API key not configured" None);
             outbound := [] |}
      ∧ or_str key "" = ""))
  ∧ (∀ params details,
       params ∈ outbound r →
       provider params = ProviderError details →
       r = {| result :=
                Responded 500
                  (ErrorBody "Failed to fetch hospitals from Geoapify"
                     (Some details));
              outbound := [params] |}).
Proof.
  cbv zeta.
  destruct (fetch_cases key provider args)
    as [[H ?]|(lat & lng & Hlat & Hlng &
               [[H ?]|(radius_m & Hrad &
                 [[H ?]|(k & Hk & Hne & [(d & Hp & H)|(fo & Hp & H)])])])].
  - unfold nearby_hospitals. rewrite H. simpl. split; [auto|].
    by intros params details ?%elem_of_nil.
  - unfold nearby_hospitals. rewrite H. simpl. split; [auto|].
    by intros params details ?%elem_of_nil.
  - unfold nearby_hospitals. rewrite H. simpl. split; [auto|].
    by intros params details ?%elem_of_nil.
  - unfold nearby_hospitals. rewrite H. simpl. split; [done|].
    intros params details ->%list_elem_of_singleton Hd. congruence.
  - destruct (nearby_hospitals_responds _ _ _ _ _ _ _ _ H) as (hs & fb & ->).
    simpl. split; [done|].
    intros params details ->%list_elem_of_singleton Hd. congruence.
Qed.

(** X6: with no key in the environment, or an empty one, nothing is ever
    sent to the provider and the answer is never 200; a request whose
    [lat], [lng] and [radius_m] parse is answered 500. *)
Theorem unset_key_never_calls_provider key provider args :
  key = None ∨ key = Some "" →
  let r := nearby_hospitals key provider args in
  outbound r = []
  ∧ (∀ st hs fb, result r ≠ Responded st (HospitalsBody hs fb))
  ∧ ∀ lat lng radius_m,
      parse_coord (arg_lat args) = Ok lat →
      parse_coord (arg_lng args) = Ok lng →
      parse_radius (arg_radius_m args) = Ok radius_m →
      result r
      = Responded 500 (ErrorBody "Geoapify API key not configured" None).
Proof.
  intros Hkey. cbv zeta. unfold nearby_hospitals.
  destruct (fetch_cases key provider args)
    as [[H Hu]|(lat & lng & Hlat & Hlng &
               [[H Hr]|(radius_m & Hrad &
                 [[H ?]|(k & Hk & Hne & _)])])].
  - rewrite H. simpl. repeat split; [done|]. intros lat lng radius_m Hlat Hlng.
    by destruct Hu as [?%(parse_coord_Ok _ lat)|?%(parse_coord_Ok _ lng)].
  - rewrite H. simpl. repeat split; [done|]. intros; congruence.
  - rewrite H. simpl. repeat split; done.
  - destruct Hkey; simplify_eq.
Qed.

(** X7: whatever is sent to the provider is a single request, built from a
    non-empty key and from [lat], [lng] and [radius_m] as parsed, without
    any range check; its result cap is 100 and its category is that of the
    stripped, lower-cased department. *)
Theorem outbound_request_shape key provider args q :
  q ∈ outbound (nearby_hospitals key provider args) →
  ∃ k lat lng radius_m,
    key = Some k ∧ k ≠ ""
    ∧ parse_coord (arg_lat args) = Ok lat
    ∧ parse_coord (arg_lng args) = Ok lng
    ∧ parse_radius (arg_radius_m args) = Ok radius_m
    ∧ q = {| req_categories := geo_category (requested_department args);
             req_circle := (lng, lat, radius_m);
             req_limit := 100;
             req_apiKey := k |}
    ∧ outbound (nearby_hospitals key provider args) = [q].
Proof.
  destruct (fetch_cases key provider args)
    as [[H ?]|(lat & lng & Hlat & Hlng &
               [[H ?]|(radius_m & Hrad &
                 [[H ?]|(k & Hk & Hne & [(d & ? & H)|(fo & Hp & H)])])])].
  - unfold nearby_hospitals. rewrite H. simpl. by intros ?%elem_of_nil.
  - unfold nearby_hospitals. rewrite H. simpl. by intros ?%elem_of_nil.
  - unfold nearby_hospitals. rewrite H. simpl. by intros ?%elem_of_nil.
  - unfold nearby_hospitals. rewrite H. simpl.
    intros ->%list_elem_of_singleton. exists k, lat, lng, radius_m. done.
  - destruct (nearby_hospitals_responds _ _ _ _ _ _ _ _ H) as (hs & fb & ->).
    simpl. intros ->%list_elem_of_singleton. exists k, lat, lng, radius_m. done.
Qed.

Lemma dept_map_lookup k c :
  dept_map !! k = Some c ↔
  (k, c) ∈ [("cardiology", "healthcare"); ("neurology", "healthcare");
            ("dermatology", "healthcare"); ("orthopedics", "healthcare");
            ("gastroenterology", "healthcare"); ("pulmonology", "healthcare");
            ("ent", "healthcare"); ("dental", "healthcare.dentist");
            ("dentistry", "healthcare.dentist");
            ("emergency", "healthcare.hospital");
            ("general medicine", "healthcare"); ("primary care", "healthcare")].
Proof.
  unfold dept_map. symmetry. apply elem_of_list_to_map.
  apply (bool_decide_unpack _). by vm_compute.
Qed.

Lemma dept_map_None k :
  dept_map !! k = None → k ∉ ["dental"; "dentistry"; "emergency"].
Proof.
  intros Hk Hin.
  assert (∃ c, dept_map !! k = Some c) as [c Hc]; [|congruence].
  apply list_elem_of_In in Hin. simpl in Hin.
  destruct Hin as [<-|[<-|[<-|[]]]];
    [exists "healthcare.dentist"|exists "healthcare.dentist"
    |exists "healthcare.hospital"];
    apply dept_map_lookup; apply (bool_decide_unpack _); by vm_compute.
Qed.

(** X8: the category sent to the provider is one of three: the dentist
    category exactly for "dental" and "dentistry", the hospital category
    exactly for "emergency", and plain "healthcare" for every other
    department, known or unknown, after stripping and lower-casing. *)
Theorem geo_category_values (department : string) :
  let dept_key := PyStr.lower (PyStr.strip department) in
  (geo_category department = "healthcare.dentist"
   ↔ dept_key = "dental" ∨ dept_key = "dentistry")
  ∧ (geo_category department = "healthcare.hospital" ↔ dept_key = "emergency")
  ∧ (geo_category department = "healthcare"
     ↔ dept_key ∉ ["dental"; "dentistry"; "emergency"]).
Proof.
  cbv zeta. unfold geo_category.
  destruct (dept_map !! PyStr.lower (PyStr.strip department)) as [c|] eqn:Hc.
  - apply dept_map_lookup, list_elem_of_In in Hc. simpl in Hc.
    repeat (destruct Hc as [[= <- <-]|Hc];
            [apply (bool_decide_unpack _); by vm_compute|]).
    done.
  - apply dept_map_None in Hc. repeat split; try done.
    + intros [Hk|Hk]; destruct Hc; rewrite Hk;
        apply (bool_decide_unpack _); by vm_compute.
    + intros Hk; destruct Hc; rewrite Hk;
        apply (bool_decide_unpack _); by vm_compute.
Qed.

Lemma requested_department_blank args :
  blank_department args → requested_department args = "".
Proof.
  unfold blank_department, requested_department, or_str.
  destruct (arg_department args) as [s|]; [|done].
  destruct (PyStr.truthy s) eqn:Hs; [by intros ->|done].
Qed.

End RequestFacts.

(** ** Hospital finder: records and response *)

(** A department that no derived record can match: it is not "emergency",
    it occurs in none of the specialty names, and it is not a key of the
    synonym table. *)
Definition never_matches (dept : string) : bool :=
  let dept_norm := PyStr.lower dept in
  PyStr.truthy dept
  && negb (String.eqb dept_norm "emergency")
  && forallb (λ s, negb (PyStr.contains dept_norm (PyStr.lower s)))
       all_specialties
  && forallb (λ kv : string * list string, negb (String.eqb dept_norm kv.1))
       HospitalFinder.synonyms.

(** A feature whose position cannot be used: no geometry, no coordinate
    list, fewer than two coordinates, a null among the first two, or one
    that [float] rejects. *)
Definition no_position `{B : Builtins} (feat : feature) : Prop :=
  match feat_geometry feat with
  | Some (Some (lng_res :: lat_res :: _)) =>
      lng_res = VNone ∨ lat_res = VNone
      ∨ (∃ e, py_float lat_res = Raise e) ∨ (∃ e, py_float lng_res = Raise e)
  | _ => True
  end.

Section RecordFacts.
Context `{L : Libm} `{B : Builtins}.
Import HospitalFinder.

Lemma or_str_default_truthy o d :
  PyStr.truthy d = true → PyStr.truthy (or_str o d) = true.
Proof. unfold or_str. destruct o as [s|]; [|done]. by destruct (PyStr.truthy s) eqn:?. Qed.

Lemma truthy_ne s : PyStr.truthy s = true ↔ s ≠ "".
Proof. by destruct s. Qed.

(** What one iteration of the loop appends. *)
Lemma derive_record_Some lat lng i feat h :
  derive_record lat lng i feat = Ok (Some h) →
  let props := default no_properties (feat_properties feat) in
  usable feat = true
  ∧ Facility.name h = or_str (prop_name props) ""
  ∧ Facility.id h = record_id i (prop_place_id props)
  ∧ PyStr.truthy (Facility.address h) = true
  ∧ PyStr.truthy (Facility.phone h) = true
  ∧ Facility.specialties h
    = infer_specialties (PyStr.lower <$> default [] (prop_categories props))
        (PyStr.lower (Facility.name h))
  ∧ Facility.has_specialties h
    = match Facility.specialties h with [] => false | _ => true end
  ∧ Facility.rating h
    = match prop_rate props with
      | Some r => if float_truthy r then r else 4.5%float
      | None => 4.5%float
      end
  ∧ (Facility.lng h, Facility.lat h) = lng_lat (coords_of feat)
  ∧ distance_of lat lng (Facility.lat h) (Facility.lng h)
    = Ok (Facility.distance_km h).
Proof.
  unfold derive_record, usable.
  destruct (lng_lat (coords_of feat)) as [lng_res lat_res].
  destruct (PyStr.truthy (or_str (prop_name _) "")) eqn:Hname; simpl; [|done].
  destruct (distance_of lat lng lat_res lng_res) as [d|] eqn:Hd; simpl; [|done].
  intros [= <-]. simpl. repeat split; try done.
  - by repeat apply or_str_default_truthy.
  - by apply or_str_default_truthy.
Qed.

Lemma derive_record_None lat lng i feat :
  derive_record lat lng i feat = Ok None ↔ usable feat = false.
Proof.
  unfold derive_record, usable.
  destruct (lng_lat (coords_of feat)) as [lng_res lat_res].
  destruct (PyStr.truthy (or_str (prop_name _) "")); simpl; [|done].
  destruct (distance_of lat lng lat_res lng_res); simpl; split; done.
Qed.

(** Every record of [hospitals_all] comes from a feature, and knows the
    feature's index in the provider's list. *)
Lemma derive_records_elem lat lng i features source h :
  derive_records lat lng i features = Ok source → h ∈ source →
  ∃ j feat,
    features !! j = Some feat
    ∧ derive_record lat lng (i + j) feat = Ok (Some h).
Proof.
  revert i source.
  induction features as [|feat rest IH]; intros i source; simpl.
  { intros [= <-] ?%elem_of_nil. done. }
  intros (r & Hr & H)%bind_Ok_inv. apply bind_Ok_inv in H as (rs & Hrs & H).
  injection H as <-. intros Hh.
  assert (r = Some h ∨ h ∈ rs) as [->|Hin].
  { destruct r as [h'|]; [|by right].
    apply elem_of_cons in Hh as [->|?]; auto. }
  - exists 0, feat. by rewrite Nat.add_0_r.
  - destruct (IH _ _ Hrs Hin) as (j & feat' & Hj & Hd).
    exists (S j), feat'. split; [done|].
    by replace (i + S j) with (S i + j) by lia.
Qed.

Lemma derive_records_length lat lng i features source :
  derive_records lat lng i features = Ok source →
  length source = length (filter (λ feat, usable feat = true) features).
Proof.
  revert i source.
  induction features as [|feat rest IH]; intros i source; simpl.
  { by intros [= <-]. }
  intros (r & Hr & H)%bind_Ok_inv. apply bind_Ok_inv in H as (rs & Hrs & H).
  injection H as <-. rewrite filter_cons. apply IH in Hrs.
  destruct r as [h|].
  - apply derive_record_Some in Hr as [Hu _].
    rewrite decide_True by done. simpl. by rewrite Hrs.
  - apply derive_record_None in Hr.
    rewrite decide_False by congruence. done.
Qed.

Lemma render_elem recs hs v :
  render recs = Ok hs → v ∈ hs → ∃ h, h ∈ recs ∧ view h = Ok v.
Proof.
  revert hs. induction recs as [|h rest IH]; intros hs; simpl.
  { intros [= <-] ?%elem_of_nil. done. }
  intros (v' & Hv & H)%bind_Ok_inv. apply bind_Ok_inv in H as (vs & Hvs & H).
  injection H as <-. intros [->|Hin]%elem_of_cons.
  - exists h. split; [left|done].
  - destruct (IH _ Hvs Hin) as (h' & ? & ?). exists h'. split; [by right|done].
Qed.

Lemma render_length recs hs : render recs = Ok hs → length hs = length recs.
Proof.
  intros [_ H]%render_names. apply (f_equal length) in H.
  by rewrite !length_fmap in H.
Qed.

(** What a 200 answer is made of. *)
Lemma nearby_hospitals_200 key provider args st hs fb :
  result (nearby_hospitals key provider args)
  = Responded st (HospitalsBody hs fb) →
  ∃ lat lng department params features source,
    fetch key provider args = Features lat lng department params features
    ∧ derive_records lat lng 0 features = Ok source
    ∧ render (select department (sort_by_distance source)).1 = Ok hs
    ∧ fb = (select department (sort_by_distance source)).2
    ∧ st = 200%Z.
Proof.
  destruct (fetch_cases key provider args)
    as [[H ?]|(lat & lng & Hlat & Hlng &
               [[H ?]|(radius_m & Hrad &
                 [[H ?]|(k & Hk & Hne & [(d & ? & H)|(fo & Hp & H)])])])];
    try (unfold nearby_hospitals; rewrite H; simpl; by intros ?).
  destruct (derive_records_total lat lng 0 (default [] fo)) as [source Hsrc].
  rewrite (nearby_hospitals_served _ _ _ _ _ _ _ _ _ H Hsrc). simpl.
  intros (-> & -> & Hhs)%respond_inv.
  eexists _, _, _, _, _, source. by rewrite H.
Qed.

Lemma select_blank (hospitals_all : list Facility.t) :
  select "" hospitals_all = (hospitals_all, false).
Proof.
  unfold select. simpl. f_equal.
  induction hospitals_all as [|h rest IH]; [done|].
  rewrite filter_cons, decide_True by done. by rewrite IH.
Qed.

(** X9: without a department (missing, empty or only white space) the
    answer lists every candidate, in sorted order, with
    [fallback_used = false]: as many entries as the provider sent usable
    features, and their names are those of the candidates. *)
Theorem no_department_lists_every_candidate key provider args lat lng
    department params features source :
  fetch key provider args = Features lat lng department params features →
  derive_records lat lng 0 features = Ok source →
  blank_department args →
  ∃ hs,
    nearby_hospitals key provider args
    = {| result := Responded 200 (HospitalsBody hs false);
         outbound := [params] |}
    ∧ render (sort_by_distance source) = Ok hs
    ∧ FacilityView.name <$> hs ≡ₚ Facility.name <$> source
    ∧ length hs = length (filter (λ feat, usable feat = true) features).
Proof.
  intros Hfetch Hsrc Hblank.
  rewrite (nearby_hospitals_served _ _ _ _ _ _ _ _ _ Hfetch Hsrc).
  apply fetch_Features_inv in Hfetch
    as (k & radius_m & fo & _ & _ & _ & _ & _ & -> & _).
  rewrite (requested_department_blank _ Hblank), select_blank. simpl.
  destruct (respond_printable (sort_by_distance source) false)
    as (hs & Hhs & ->).
  { apply sort_by_distance_printable. by eapply derive_records_printable. }
  exists hs. split; [done|]. split; [done|].
  destruct (render_names _ _ Hhs) as [_ ->]. split.
  - by rewrite sort_by_distance_Permutation.
  - rewrite (render_length _ _ Hhs), sort_by_distance_Permutation.
    by eapply derive_records_length.
Qed.

Lemma filter_none {A} (P : A → Prop) `{!∀ x, Decision (P x)} (l : list A) :
  (∀ x, x ∈ l → ¬ P x) → filter P l = [].
Proof.
  induction l as [|x l IH]; intros Hl; [done|].
  rewrite filter_cons, decide_False by (apply Hl; left).
  apply IH. intros y Hy. apply Hl. by right.
Qed.

Lemma derive_records_specialties lat lng i features source :
  derive_records lat lng i features = Ok source →
  Forall (λ h, Facility.specialties h `sublist_of` all_specialties) source.
Proof.
  intros Hsrc. apply Forall_forall. intros h Hh.
  destruct (derive_records_elem _ _ _ _ _ _ Hsrc Hh) as (j & feat & _ & Hd).
  by eapply derive_record_specialties.
Qed.

Lemma never_matches_spec h dept :
  Facility.specialties h `sublist_of` all_specialties →
  never_matches dept = true → matches_department h dept = false.
Proof.
  intros Hsub. unfold never_matches, matches_department. cbv zeta.
  intros [[[-> Hem%negb_true_iff]%andb_true_iff Hsp]%andb_true_iff
          Hsyn]%andb_true_iff.
  cbn [negb]. rewrite Hem.
  rewrite forallb_forall in Hsp, Hsyn.
  assert (PyStr.any (PyStr.contains (PyStr.lower dept))
            (PyStr.lower <$> Facility.specialties h) = false) as ->.
  { apply not_true_is_false. intros (s' & Hs' & Hc)%existsb_exists.
    apply list_elem_of_In, list_elem_of_fmap in Hs' as (s & -> & Hs).
    assert (In s all_specialties) as Hin
      by (apply list_elem_of_In; by eapply elem_of_sublist).
    apply Hsp in Hin. by rewrite Hc in Hin. }
  apply not_true_is_false. intros (kv & Hkv & Hc)%existsb_exists.
  apply andb_true_iff in Hc as [Hc _]. apply Hsyn in Hkv. by rewrite Hc in Hkv.
Qed.

(** X10: a department that is not "emergency", occurs in no specialty name
    and is no key of the synonym table ("pulmonology", which the triage
    recommends, is one) matches no candidate: the answer is always the
    fallback, the first 15 sorted candidates with [fallback_used = true]. *)
Theorem unmatchable_department_falls_back key provider args lat lng
    department params features source :
  fetch key provider args = Features lat lng department params features →
  derive_records lat lng 0 features = Ok source →
  never_matches department = true →
  ∃ hs,
    nearby_hospitals key provider args
    = {| result := Responded 200 (HospitalsBody hs true);
         outbound := [params] |}
    ∧ render (take 15 (sort_by_distance source)) = Ok hs.
Proof.
  intros Hfetch Hsrc Hnever.
  rewrite (nearby_hospitals_served _ _ _ _ _ _ _ _ _ Hfetch Hsrc).
  assert (Forall printable (sort_by_distance source)) as Hpr.
  { apply sort_by_distance_printable. by eapply derive_records_printable. }
  pose proof (select_printable department _ Hpr) as Hsel.
  assert (select department (sort_by_distance source)
          = (take 15 (sort_by_distance source), true)) as Hselect.
  { unfold select.
    assert (filter (λ h, matches_department h department = true)
              (sort_by_distance source) = []) as ->.
    { apply filter_none. intros h Hh.
      rewrite never_matches_spec; [done| |done].
      rewrite sort_by_distance_Permutation in Hh.
      pose proof (derive_records_specialties _ _ _ _ _ Hsrc) as Hall.
      rewrite Forall_forall in Hall. by apply Hall. }
    assert (PyStr.truthy department = true) as ->; [|done].
    unfold never_matches in Hnever. by destruct department. }
  rewrite Hselect in Hsel |- *. simpl in *.
  destruct (respond_printable _ true Hsel) as (hs & Hhs & ->). eauto.
Qed.

(** X11: the answer never has more entries than the provider sent usable
    features, and never more than 15 when the fallback was used. *)
Theorem response_size key provider args lat lng department params features
    st hs fb :
  fetch key provider args = Features lat lng department params features →
  result (nearby_hospitals key provider args)
  = Responded st (HospitalsBody hs fb) →
  length hs ≤ length (filter (λ feat, usable feat = true) features)
  ∧ (fb = true → length hs ≤ 15).
Proof.
  intros Hfetch Hres.
  destruct (derive_records_total lat lng 0 features) as [source Hsrc].
  rewrite (nearby_hospitals_served _ _ _ _ _ _ _ _ _ Hfetch Hsrc) in Hres.
  simpl in Hres. apply respond_inv in Hres as (_ & -> & Hhs).
  rewrite (render_length _ _ Hhs). split.
  - rewrite <- (derive_records_length _ _ _ _ _ Hsrc).
    rewrite <- (Permutation_length (sort_by_distance_Permutation source)).
    apply sublist_length, select_sublist.
  - unfold select. case_match; simpl; [|done]. intros _.
    rewrite length_take. lia.
Qed.

(** X12: every entry of a 200 answer has a name, an address and a phone
    text that are not empty; its specialties are some of the eight names
    of the inference, in rule order and without repetition; and
    [has_specialties] says whether there is one. *)
Theorem response_entries_well_formed key provider args st hs fb v :
  result (nearby_hospitals key provider args)
  = Responded st (HospitalsBody hs fb) →
  v ∈ hs →
  FacilityView.name v ≠ "" ∧ FacilityView.address v ≠ ""
  ∧ FacilityView.phone v ≠ ""
  ∧ FacilityView.specialties v `sublist_of` all_specialties
  ∧ NoDup (FacilityView.specialties v)
  ∧ (FacilityView.has_specialties v = true ↔ FacilityView.specialties v ≠ []).
Proof.
  intros (lat & lng & department & params & features & source & _ & Hsrc
          & Hhs & _ & _)%nearby_hospitals_200 Hv.
  destruct (render_elem _ _ _ Hhs Hv) as (h & Hh & Hview).
  assert (h ∈ source) as Hin.
  { rewrite <- sort_by_distance_Permutation.
    eapply elem_of_sublist; [done|apply select_sublist]. }
  destruct (derive_records_elem _ _ _ _ _ _ Hsrc Hin) as (j & feat & _ & Hd).
  pose proof (derive_record_specialties _ _ _ _ _ Hd) as Hsub.
  apply derive_record_Some in Hd
    as (Hu & Hname & _ & Haddr & Hphone & _ & Hhas & _).
  apply view_Ok in Hview
    as (_ & _ & -> & -> & _ & _ & _ & -> & -> & -> & _).
  split; [rewrite Hname; by apply truthy_ne|].
  split; [by apply truthy_ne|]. split; [by apply truthy_ne|].
  split; [done|]. split.
  - refine (sublist_NoDup _ _ _ Hsub). apply (bool_decide_unpack _).
    by vm_compute.
  - rewrite Hhas. by destruct (Facility.specialties h).
Qed.

Lemma distance_of_no_position lat lng feat :
  no_position feat →
  distance_of lat lng (lng_lat (coords_of feat)).2 (lng_lat (coords_of feat)).1
  = Ok None.
Proof.
  unfold no_position, coords_of.
  destruct (feat_geometry feat) as [[[|lng_res [|lat_res rest]]|]|]; try done.
  simpl. unfold distance_of.
  intros [->|[->|[[e He]|[e He]]]]; [by rewrite andb_false_r|done| |];
    (destruct (negb (is_none lat_res) && negb (is_none lng_res)); [|done]).
  - rewrite He. simpl. by rewrite (py_float_raises _ _ He).
  - pose proof (py_float_raises lat_res) as Hlat.
    destruct (py_float lat_res) as [a|e'] eqn:Ha; simpl.
    + rewrite He. simpl. by rewrite (py_float_raises _ _ He).
    + by rewrite (Hlat e' eq_refl).
Qed.

(** X13: a feature with a name but without a usable position (no geometry,
    fewer than two coordinates, a null, or a coordinate that [float]
    rejects) is still listed; its distance is unknown and is shown as the
    empty text. *)
Theorem no_position_unknown_distance lat lng i feat :
  usable feat = true → no_position feat →
  ∃ h v,
    derive_record lat lng i feat = Ok (Some h)
    ∧ Facility.distance_km h = None
    ∧ view h = Ok v ∧ FacilityView.distance v = "".
Proof.
  intros Hu Hno. apply (distance_of_no_position lat lng) in Hno.
  unfold derive_record. unfold usable in Hu.
  destruct (lng_lat (coords_of feat)) as [lng_res lat_res].
  rewrite Hu. simpl in *. rewrite Hno. simpl. by eexists _, _.
Qed.

Lemma append_ne s c t : (s ++ String c t)%string ≠ "".
Proof. by destruct s. Qed.

(** X14: the distance text of an entry is empty exactly when the distance
    is unknown; a NaN distance is shown in kilometres. *)
Theorem distance_text_empty_iff_unknown h v :
  view h = Ok v →
  (FacilityView.distance v = "" ↔ Facility.distance_km h = None)
  ∧ (Facility.distance_km h = Some nan →
     FacilityView.distance v = (format_1f nan ++ " km")%string).
Proof.
  intros (Hd & _)%view_Ok. unfold format_distance in Hd.
  destruct (Facility.distance_km h) as [dk|]; [|by injection Hd as <-].
  split.
  - split; [|done]. destruct (dk <? 1)%float.
    + apply bind_Ok_inv in Hd as (n & _ & [= <-]). by intros ?%append_ne.
    + injection Hd as <-. by intros ?%append_ne.
  - intros [= ->]. by injection Hd as <-.
Qed.

(** X15: the rating of a derived record is never zero (a missing or zero
    [rate] became 4.5, any other is kept), so the second default, in the
    response loop, never applies: the entry shows the record's rating,
    rounded. *)
Theorem rating_defaulted_once lat lng i feat h v :
  derive_record lat lng i feat = Ok (Some h) →
  view h = Ok v →
  let rate := prop_rate (default no_properties (feat_properties feat)) in
  (Facility.rating h =? 0)%float = false
  ∧ FacilityView.rating v = round1 (Facility.rating h)
  ∧ (∀ r, rate = Some r → (r =? 0)%float = false → Facility.rating h = r)
  ∧ (rate = None ∨ (∃ r, rate = Some r ∧ (r =? 0)%float = true) →
     Facility.rating h = 4.5%float).
Proof.
  intros (_ & _ & _ & _ & _ & _ & _ & Hr & _)%derive_record_Some Hv.
  apply view_Ok in Hv as (_ & _ & _ & _ & _ & _ & _ & _ & _ & _ & ->).
  cbv zeta. rewrite Hr. unfold float_truthy.
  destruct (prop_rate _) as [r|]; [destruct (r =? 0)%float eqn:Hz|]; simpl.
  - repeat split; try done. by intros r' [= <-]; congruence.
  - rewrite Hz. simpl. repeat split; try done.
    + by intros r' [= <-].
    + intros [?|(r' & [= <-] & ?)]; congruence.
  - repeat split; done.
Qed.

Lemma derive_records_default_ids lat lng i features source :
  derive_records lat lng i features = Ok source →
  Forall (λ feat,
            prop_place_id (default no_properties (feat_properties feat)) = None)
    features →
  NoDup (Facility.id <$> source)
  ∧ ∀ s, s ∈ Facility.id <$> source → ∃ j, i ≤ j ∧ s = pretty j.
Proof.
  intros Hsrc Hall. revert i source Hsrc.
  induction Hall as [|feat rest Hfeat Hall IH]; intros i source; simpl.
  { intros [= <-]. split; [constructor|]. by intros s ?%elem_of_nil. }
  intros (r & Hr & H)%bind_Ok_inv. apply bind_Ok_inv in H as (rs & Hrs & H).
  injection H as <-. destruct (IH _ _ Hrs) as [Hnd Hids].
  destruct r as [h|].
  - apply derive_record_Some in Hr as (_ & _ & Hid & _).
    rewrite Hfeat in Hid. simpl in Hid. rewrite fmap_cons, Hid. split.
    + constructor; [|done]. intros (j & Hj & Heq)%Hids.
      apply (inj pretty) in Heq. lia.
    + intros s [->|Hs]%elem_of_cons; [by exists i|].
      destruct (Hids s Hs) as (j & ? & ?). exists j. split; [lia|done].
  - split; [done|]. intros s Hs.
    destruct (Hids s Hs) as (j & ? & ?). exists j. split; [lia|done].
Qed.

(** X16: when no feature has a [place_id] key, every record is derived
    from the feature whose decimal index in the provider's list (features
    without a name counted) is its id, and no two records share an id. *)
Theorem default_ids_distinct lat lng features source :
  derive_records lat lng 0 features = Ok source →
  Forall (λ feat,
            prop_place_id (default no_properties (feat_properties feat)) = None)
    features →
  NoDup (Facility.id <$> source)
  ∧ ∀ h, h ∈ source →
         ∃ j feat, features !! j = Some feat
                   ∧ derive_record lat lng j feat = Ok (Some h)
                   ∧ Facility.id h = pretty j.
Proof.
  intros Hsrc Hall. split; [by eapply derive_records_default_ids|].
  intros h Hh.
  destruct (derive_records_elem _ _ _ _ _ _ Hsrc Hh) as (j & feat & Hj & Hd).
  exists j, feat. split; [done|]. split; [done|].
  apply derive_record_Some in Hd as (_ & _ & Hid & _).
  rewrite Forall_forall in Hall.
  rewrite Hid, Hall; [done|]. by eapply list_elem_of_lookup_2.
Qed.

Lemma matches_department_lower h dept dept' :
  PyStr.lower dept = PyStr.lower dept' →
  matches_department h dept = matches_department h dept'.
Proof.
  intros Heq. unfold matches_department.
  rewrite <- (truthy_lower dept), <- (truthy_lower dept'). by rewrite Heq.
Qed.

(** X17: a record matches the department of each of its inferred
    specialties, in any letter case. *)
Theorem inferred_specialty_matches lat lng i feat h s dept :
  derive_record lat lng i feat = Ok (Some h) →
  s ∈ Facility.specialties h →
  PyStr.lower dept = PyStr.lower s →
  matches_department h dept = true.
Proof.
  intros Hd Hs Hdept.
  rewrite (matches_department_lower h dept s Hdept).
  pose proof (derive_record_specialties _ _ _ _ _ Hd) as Hsub.
  assert (s ∈ all_specialties) as Hall by (by eapply elem_of_sublist).
  unfold matches_department.
  assert (PyStr.any (PyStr.contains (PyStr.lower s))
            (PyStr.lower <$> Facility.specialties h) = true) as Hany.
  { apply existsb_exists. exists (PyStr.lower s). split.
    - apply list_elem_of_In, list_elem_of_fmap. eauto.
    - apply list_elem_of_In in Hall. simpl in Hall.
      repeat (destruct Hall as [<-|Hall]; [by vm_compute|]). done. }
  rewrite Hany.
  apply list_elem_of_In in Hall. simpl in Hall.
  repeat (destruct Hall as [<-|Hall]; [done|]). done.
Qed.

End RecordFacts.

(** ** Substring tests that subsume one another *)

Section SubstringFacts.

Lemma prefix_app_l (a b s : string) :
  String.prefix (a ++ b)%string s = true → String.prefix a s = true.
Proof.
  revert s. induction a as [|c a IH]; intros [|c' s]; simpl; try done.
  destruct (ascii_dec c c'); [apply IH|done].
Qed.

Lemma contains_nil (sub : string) :
  PyStr.contains sub "" = String.prefix sub "".
Proof. unfold PyStr.contains. by case_match. Qed.

Lemma contains_cons (sub : string) (c : ascii) (s : string) :
  PyStr.contains sub (String c s)
  = String.prefix sub (String c s) || PyStr.contains sub s.
Proof. done. Qed.

Lemma contains_app_l (a b s : string) :
  PyStr.contains (a ++ b)%string s = true → PyStr.contains a s = true.
Proof.
  induction s as [|c s IH].
  - rewrite !contains_nil. apply prefix_app_l.
  - rewrite !contains_cons, !orb_true_iff.
    intros [?%prefix_app_l|?]; auto.
Qed.

Lemma contains_tail (c : ascii) (sub s : string) :
  PyStr.contains (String c sub) s = true → PyStr.contains sub s = true.
Proof.
  induction s as [|c' s IH]; [done|].
  rewrite !contains_cons, !orb_true_iff. intros [Hp|?]; [|auto].
  right. simpl in Hp. destruct (ascii_dec c c'); [|done].
  destruct s; [by rewrite contains_nil|].
  rewrite contains_cons. by rewrite Hp.
Qed.

Lemma elem_of_rule (x : string) (c : bool) (s : string) :
  x ∈ (if c then [s] else []) ↔ c = true ∧ x = s.
Proof.
  destruct c.
  - rewrite list_elem_of_singleton. split; [by intros ->|by intros [_ ->]].
  - split; [by intros ?%elem_of_nil|by intros [? _]].
Qed.

End SubstringFacts.

Section InferenceFacts.
Import HospitalFinder.

(** X18: the test for "emergency" in the name is subsumed by the test for
    "er": the emergency flag is set exactly when the lower-cased name
    contains "er" or the opening hours contain "24/7". *)
Theorem emergency_flag_is_er (name_lower : string)
    (opening_hours : option string) :
  infer_emergency name_lower opening_hours
  = PyStr.contains "er" name_lower
    || PyStr.contains "24/7" (or_str opening_hours "").
Proof.
  unfold infer_emergency.
  destruct (PyStr.contains "emergency" name_lower) eqn:Hem; [|done].
  do 2 apply contains_tail in Hem.
  apply (contains_app_l "er" "gency") in Hem. by rewrite Hem.
Qed.

(** X19: "Dental" is inferred exactly when the lower-cased name contains
    "dent" (the tests for "dental" and "dentist" add nothing), and every
    record inferred as "Dental" is also inferred as "ENT", whose test is
    the substring "ent". *)
Theorem dental_implies_ent (cats_lower : list string) (name_lower : string) :
  ("Dental" ∈ infer_specialties cats_lower name_lower
   ↔ PyStr.contains "dent" name_lower = true)
  ∧ ("ENT" ∈ infer_specialties cats_lower name_lower
     ↔ PyStr.contains "ent" name_lower = true
       ∨ PyStr.contains "ear nose throat" name_lower = true)
  ∧ ("Dental" ∈ infer_specialties cats_lower name_lower →
     "ENT" ∈ infer_specialties cats_lower name_lower).
Proof.
  assert ("Dental" ∈ infer_specialties cats_lower name_lower
          ↔ PyStr.contains "dent" name_lower = true) as Hdental.
  { unfold infer_specialties. cbv zeta.
    rewrite !elem_of_app, !elem_of_rule, !orb_true_iff. split.
    - intros [[_ [=]]|[[_ [=]]|[[_ [=]]|[[_ [=]]|[[_ [=]]|[[_ [=]]
                |[[[[H|H]|H] _]|[_ [=]]]]]]]]]; [done| |].
      + by apply (contains_app_l "dent" "al").
      + by apply (contains_app_l "dent" "ist").
    - intros H. do 6 right. left. auto. }
  assert ("ENT" ∈ infer_specialties cats_lower name_lower
          ↔ PyStr.contains "ent" name_lower = true
            ∨ PyStr.contains "ear nose throat" name_lower = true) as Hent.
  { unfold infer_specialties. cbv zeta.
    rewrite !elem_of_app, !elem_of_rule, !orb_true_iff. split.
    - intros [[_ [=]]|[[_ [=]]|[[_ [=]]|[[_ [=]]|[[H _]|[[_ [=]]
                |[[_ [=]]|[_ [=]]]]]]]]]. done.
    - intros H. do 4 right. left. auto. }
  split; [done|]. split; [done|].
  rewrite Hdental, Hent. intros H. left. by apply (contains_tail "d").
Qed.

End InferenceFacts.

(** ** Candidates without a distance *)

Section UnknownDistances.
Context `{L : Libm} `{B : Builtins}.
Import HospitalFinder.

Lemma unknown_distances_run (source : list Facility.t) :
  Forall (λ h, Facility.distance_km h = None) source →
  Sorted (not_after sort_key tuple_lt) source.
Proof.
  intros Hall.
  induction Hall as [|h rest Hh Hall IH]; constructor; [done|].
  destruct Hall as [|h' rest' Hh' _]; constructor.
  unfold not_after, sort_key. by rewrite Hh, Hh'.
Qed.

(** X20: when no candidate has a known distance, all sort keys are equal
    and the sort leaves the candidates in the provider's order. *)
Theorem unknown_distances_keep_provider_order (source : list Facility.t) :
  Forall (λ h, Facility.distance_km h = None) source →
  sort_by_distance source = source.
Proof.
  intros Hall. by apply list_sort_run, unknown_distances_run.
Qed.

Lemma distance_of_infinite_latitude lat lng lat_res lng_res d :
  is_infinity lat = true →
  distance_of lat lng lat_res lng_res = Ok d → d = None.
Proof.
  intros Hinf. unfold distance_of. case_match; [|congruence].
  destruct (py_float lat_res) as [a|e] eqn:Ha; simpl; [|case_match; congruence].
  destruct (py_float lng_res) as [b|e] eqn:Hb; simpl; [|case_match; congruence].
  assert (haversine_distance_km (VFloat lat) (VFloat lng) (VFloat a) (VFloat b)
          = Ok None) as ->; [|simpl; congruence].
  by apply haversine_None_iff, haversine_body_infinite_lat1, is_infinity_cases.
Qed.

(** X21: an infinite latitude in the query ([float] accepts "inf") makes
    every distance unknown, so the candidates stay in the provider's
    order. *)
Theorem infinite_latitude_all_unknown lat lng i features source :
  is_infinity lat = true →
  derive_records lat lng i features = Ok source →
  Forall (λ h, Facility.distance_km h = None) source
  ∧ sort_by_distance source = source.
Proof.
  intros Hinf Hsrc.
  assert (Forall (λ h, Facility.distance_km h = None) source) as Hall.
  { apply Forall_forall. intros h Hh.
    destruct (derive_records_elem _ _ _ _ _ _ Hsrc Hh) as (j & feat & _ & Hd).
    apply derive_record_Some in Hd as (_ & _ & _ & _ & _ & _ & _ & _ & _ & Hd).
    by eapply distance_of_infinite_latitude. }
  split; [done|]. by apply list_sort_run, unknown_distances_run.
Qed.

End UnknownDistances.

(** ** Triage and finder together; the range of the distance *)

Section CrossFacts.
Context `{L : Libm}.
Import Triage HospitalFinder.

(** X22: every department that the triage recommends is a key of the
    finder's category table once lower-cased; "Emergency" is searched in
    the hospital category and all the others in plain "healthcare". *)
Theorem recommended_departments_have_category (r : symptom_report)
    (d : string) :
  d ∈ recommended_departments (assess r) →
  is_Some (dept_map !! PyStr.lower d)
  ∧ geo_category d
    = if String.eqb d "Emergency" then "healthcare.hospital" else "healthcare".
Proof.
  simpl.
  destruct (concern_cases r) as [Hc|[Hc|Hc]];
    destruct (dept_cases r) as [Hd|[Hd|[Hd|[Hd|[Hd|Hd]]]]];
    rewrite Hc, Hd; intros Hin; apply list_elem_of_In in Hin;
    vm_compute in Hin;
    repeat (destruct Hin as [<-|Hin];
            [split; [apply (bool_decide_unpack _)|]; by vm_compute|]);
    done.
Qed.

(** X23: a distance that the calculator returns is NaN or a number below
    2^19 km in magnitude: never an infinity. *)
Theorem haversine_distance_bounded (a b c d : pyval) (r : float) :
  haversine_distance_km a b c d = Ok (Some r) →
  is_nan r = true ∨ (abs r <? 524288)%float = true.
Proof.
  intros [->|Hfin]%haversine_moderate; [by left|right].
  unfold fin_le in Hfin. rewrite FloatAxioms.ltb_spec, abs_spec.
  change (Prim2SF 524288) with (S754_finite false 4503599627370496 (-33)).
  destruct (Prim2SF r) as [s|s| |s m e]; try done.
  unfold SFfin_le in Hfin. unfold SFltb, SFcompare, SFabs. cbv beta iota.
  destruct (Z.compare_spec e (-33)); [lia|done|lia].
Qed.

End CrossFacts.

(** ** The theorems at concrete requests *)

Import Reference Examples HospitalFinder.

Lemma haversine_never_raises_nan_kept_witness :
  haversine_distance_km (VStr "north") (VFloat 0) (VFloat 0) (VFloat 0)
  = Ok None
  ∧ haversine_distance_km (VFloat 0) (VFloat 0) (VFloat neg_infinity) (VInt 3)
    = Ok None.
Proof.
  destruct (haversine_never_raises_nan_kept (L := libm))
    as (_ & Hnon & Hinf & _).
  split; [apply Hnon|apply Hinf]; reflexivity.
Defined.

(** C4, as stated, fails: NaN is a degenerate input, yet the result is the
    float NaN and not null. *)
Lemma nan_latitude_not_null :
  degenerate (VFloat nan) = true
  ∧ haversine_distance_km (VFloat nan) (VFloat 0) (VFloat 0) (VFloat 0)
    = Ok (Some nan)
  ∧ haversine_distance_km (VFloat nan) (VFloat 0) (VFloat 0) (VFloat 0)
    ≠ Ok None.
Proof. repeat split. by vm_compute. Qed.

Lemma emergency_filter_is_flag_witness :
  ∃ h,
    derive_record 0 0 7 (place "Riverside Emergency Care" [] [VInt 0; VInt 1])
    = Ok (Some h)
    ∧ Facility.specialties h `sublist_of` all_specialties
    ∧ matches_department h "Emergency" = Facility.emergency h.
Proof.
  eexists. split; [vm_compute; reflexivity|].
  edestruct (emergency_filter_is_flag (L := libm) (B := builtins)
               0 0 7 (place "Riverside Emergency Care" [] [VInt 0; VInt 1]))
    as (Hsub & _ & Hflag); [vm_compute; reflexivity|].
  split; [exact Hsub|]. apply Hflag. reflexivity.
Defined.

Lemma invalid_coordinates_rejected_witness :
  nearby_hospitals (Some "key") (answering three_places)
    (query (Some "north") (Some "0") None None)
  = {| result :=
         Responded 400 (ErrorBody "lat and lng query params required" None);
       outbound := [] |}.
Proof.
  apply invalid_coordinates_rejected. left. vm_compute. reflexivity.
Defined.

Lemma unparsable_radius_raises_witness :
  nearby_hospitals None (answering three_places)
    (query (Some "0") (Some "0") None (Some "abc"))
  = {| result := Raised ValueError; outbound := [] |}.
Proof.
  apply (unparsable_radius_raises _ _ _ 0%float 0%float "abc");
    [vm_compute; reflexivity..|discriminate|vm_compute; reflexivity].
Defined.

(** C8, as stated, fails twice: with [lat] missing the 400 response comes
    first, and an empty [radius_m], which [int] would reject, is replaced
    by the default before [int] sees it: the provider is called with a
    radius of 20000 and the handler answers 200. *)
Lemma unparsable_radius_not_always_raising :
  (int_of_str "abc" = None
   ∧ nearby_hospitals (Some "key") (answering [])
       (query None (Some "0") None (Some "abc"))
     = {| result :=
            Responded 400 (ErrorBody "lat and lng query params required" None);
          outbound := [] |})
  ∧ (int_of_str "" = None
     ∧ nearby_hospitals (Some "key") (answering [])
         (query (Some "0") (Some "0") None (Some ""))
       = {| result := Responded 200 (HospitalsBody [] false);
            outbound := [places_params "key" "" 0 0 20000] |}).
Proof. by vm_compute. Qed.

Lemma response_in_distance_order_witness :
  ∃ source hs fb,
    derive_records 0 0 0 three_places = Ok source
    ∧ Facility.name <$> (select "" (sort_by_distance source)).1
      = ["Riverside Emergency Care"; "North Clinic"; "City Heart Center"]
    ∧ result (nearby_hospitals (Some "key") (answering three_places)
                (query (Some "0") (Some "0") None None))
      = Responded 200 (HospitalsBody hs fb)
    ∧ render (select "" (sort_by_distance source)).1 = Ok hs
    ∧ in_distance_order source (select "" (sort_by_distance source)).1.
Proof.
  eassert (derive_records 0 0 0 three_places = Ok _) as Hsrc
    by (vm_compute; reflexivity).
  assert (fetch (Some "key") (answering three_places)
            (query (Some "0") (Some "0") None None)
          = Features 0 0 "" (places_params "key" "" 0 0 20000) three_places)
    as Hfetch by (vm_compute; reflexivity).
  destruct (response_in_distance_order (L := libm) (B := builtins)
              _ _ _ _ _ _ _ _ _ Hfetch Hsrc) as (hs & fb & Hr & Hhs & Ho);
    [repeat constructor|].
  eexists _, hs, fb. split; [exact Hsrc|]. split; [vm_compute; reflexivity|].
  split; [exact Hr|]. split; [exact Hhs|exact Ho].
Defined.

(** C1, as stated, fails: a candidate with NaN coordinates has the
    distance NaN, which is "known".  No key in the list is less than the
    key before it, so the sort finds one ascending run and moves nothing,
    and the response goes from 222.4 km through NaN to 111.2 km. *)
Lemma nan_distance_breaks_order :
  ∃ source hs dA dC,
    fetch (Some "key") (answering nan_places)
      (query (Some "0") (Some "0") None None)
    = Features 0 0 "" (places_params "key" "" 0 0 20000) nan_places
    ∧ derive_records 0 0 0 nan_places = Ok source
    ∧ Sorted (not_after sort_key tuple_lt) source
    ∧ result (nearby_hospitals (Some "key") (answering nan_places)
                (query (Some "0") (Some "0") None None))
      = Responded 200 (HospitalsBody hs false)
    ∧ render (select "" (sort_by_distance source)).1 = Ok hs
    ∧ FacilityView.distance <$> hs = ["222.4 km"; "nan km"; "111.2 km"]
    ∧ Facility.distance_km <$> (select "" (sort_by_distance source)).1
      = [Some dA; Some nan; Some dC]
    ∧ (dC <? dA)%float = true
    ∧ ¬ in_distance_order source (select "" (sort_by_distance source)).1.
Proof.
  eexists _, _, _, _. split; [vm_compute; reflexivity|].
  split; [vm_compute; reflexivity|].
  split; [repeat constructor|].
  split; [vm_compute; reflexivity|].
  split; [vm_compute; reflexivity|].
  split; [vm_compute; reflexivity|].
  split; [vm_compute; reflexivity|].
  split; [vm_compute; reflexivity|].
  intros [Hs _]. vm_compute in Hs.
  apply StronglySorted_inv in Hs as [_ Hall].
  apply Forall_cons in Hall as [_ Hall].
  apply Forall_cons in Hall as [Hle _].
  vm_compute in Hle. discriminate.
Qed.

(** The query string alone can bring NaN in: [float("nan")] succeeds, and
    every distance computed from it is NaN. *)
Example nan_query_latitude :
  ∃ hs,
    result (nearby_hospitals (Some "key") (answering three_places)
              (query (Some "nan") (Some "0") None None))
    = Responded 200 (HospitalsBody hs false)
    ∧ FacilityView.distance <$> hs = ["nan km"; "nan km"; ""].
Proof. eexists. split; vm_compute; reflexivity. Qed.

Lemma department_filter_or_fallback_witness :
  (∃ source hs,
     derive_records 0 0 0 three_places = Ok source
     ∧ result (nearby_hospitals (Some "key") (answering three_places)
                 (query (Some "0") (Some "0") (Some " Cardiology ") None))
       = Responded 200 (HospitalsBody hs false)
     ∧ FacilityView.name <$> hs = ["City Heart Center"]
     ∧ Forall2 shows
         (filter (λ h, matches_department h "cardiology" = true)
            (sort_by_distance source)) hs)
  ∧ (∃ source hs,
       derive_records 0 0 0 sixteen_places = Ok source
       ∧ Forall distance_not_nan source
       ∧ Facility.name <$> take 3 source
         = ["Clinic 16"; "Clinic 15"; "Clinic 14"]
       ∧ result (nearby_hospitals (Some "key") (answering sixteen_places)
                   (query (Some "0") (Some "0") (Some "Dental") None))
         = Responded 200 (HospitalsBody hs true)
       ∧ FacilityView.name <$> hs
         = ["Clinic 1"; "Clinic 2"; "Clinic 3"; "Clinic 4"; "Clinic 5";
            "Clinic 6"; "Clinic 7"; "Clinic 8"; "Clinic 9"; "Clinic 10";
            "Clinic 11"; "Clinic 12"; "Clinic 13"; "Clinic 14"; "Clinic 15"]
       ∧ Facility.name <$> drop 15 (sort_by_distance source) = ["Clinic 16"]
       ∧ Forall2 shows (take 15 (sort_by_distance source)) hs
       ∧ in_distance_order source (take 15 (sort_by_distance source))
       ∧ ∀ a b, a ∈ take 15 (sort_by_distance source) →
                b ∈ drop 15 (sort_by_distance source) → distance_le a b).
Proof.
  split.
  - eassert (derive_records 0 0 0 three_places = Ok _) as Hsrc
      by (vm_compute; reflexivity).
    assert (fetch (Some "key") (answering three_places)
              (query (Some "0") (Some "0") (Some " Cardiology ") None)
            = Features 0 0 "cardiology"
                (places_params "key" "cardiology" 0 0 20000) three_places)
      as Hfetch by (vm_compute; reflexivity).
    destruct (department_filter_or_fallback (L := libm) (B := builtins)
                _ _ _ _ _ _ _ _ _ Hfetch Hsrc) as (_ & _ & _ & Hmatch);
      [discriminate|].
    destruct Hmatch as (hs & Hhs & Hr & Hshows & _);
      [vm_compute; discriminate|].
    eexists _, hs. split; [exact Hsrc|]. split; [exact Hr|].
    split; [|exact Hshows].
    destruct (render_names _ _ Hhs) as [_ ->]. vm_compute. reflexivity.
  - eassert (derive_records 0 0 0 sixteen_places = Ok _) as Hsrc
      by (vm_compute; reflexivity).
    assert (fetch (Some "key") (answering sixteen_places)
              (query (Some "0") (Some "0") (Some "Dental") None)
            = Features 0 0 "dental"
                (places_params "key" "dental" 0 0 20000) sixteen_places)
      as Hfetch by (vm_compute; reflexivity).
    destruct (department_filter_or_fallback (L := libm) (B := builtins)
                _ _ _ _ _ _ _ _ _ Hfetch Hsrc) as (_ & _ & Hfall & _);
      [discriminate|].
    destruct Hfall as (hs & Hhs & Hr & Hshows & Hnear);
      [vm_compute; reflexivity|].
    match type of Hsrc with
    | _ = Ok ?source =>
        assert (Forall distance_not_nan source) as Hok by (repeat constructor)
    end.
    eexists _, hs. split; [exact Hsrc|].
    split; [exact Hok|]. split; [vm_compute; reflexivity|].
    split; [exact Hr|]. split.
    { destruct (render_names _ _ Hhs) as [_ ->]. vm_compute. reflexivity. }
    split; [vm_compute; reflexivity|]. split; [exact Hshows|].
    exact (Hnear Hok).
Defined.

(** C2, as stated, fails: one candidate with NaN coordinates is enough for
    the fallback not to return the nearest.  The fourteen clinics come from
    near to far, then the one with the NaN distance, then the nearest of
    all: no key is less than the key before it, so the sort finds one run
    and moves nothing, and the first 15 leave the nearest out. *)
Lemma nan_fallback_drops_nearest :
  ∃ source hs near first dn df,
    fetch (Some "key") (answering sixteen_with_nan)
      (query (Some "0") (Some "0") (Some "Dental") None)
    = Features 0 0 "dental" (places_params "key" "dental" 0 0 20000)
        sixteen_with_nan
    ∧ derive_records 0 0 0 sixteen_with_nan = Ok source
    ∧ Sorted (not_after sort_key tuple_lt) source
    ∧ sort_by_distance source = source
    ∧ filter (λ h, matches_department h "dental" = true)
        (sort_by_distance source) = []
    ∧ result (nearby_hospitals (Some "key") (answering sixteen_with_nan)
                (query (Some "0") (Some "0") (Some "Dental") None))
      = Responded 200 (HospitalsBody hs true)
    ∧ FacilityView.name <$> hs
      = ["Clinic 2"; "Clinic 3"; "Clinic 4"; "Clinic 5"; "Clinic 6";
         "Clinic 7"; "Clinic 8"; "Clinic 9"; "Clinic 10"; "Clinic 11";
         "Clinic 12"; "Clinic 13"; "Clinic 14"; "Clinic 15"; "Lost Clinic"]
    ∧ source !! 15 = Some near
    ∧ Facility.name near = "Clinic 1"
    ∧ Facility.distance_km near = Some dn
    ∧ source !! 0 = Some first
    ∧ Facility.name first = "Clinic 2"
    ∧ Facility.distance_km first = Some df
    ∧ (dn <? df)%float = true
    ∧ ¬ (∀ a b, a ∈ take 15 (sort_by_distance source) →
                b ∈ drop 15 (sort_by_distance source) → distance_le a b).
Proof.
  eexists _, _, _, _, _, _. split; [vm_compute; reflexivity|].
  split; [vm_compute; reflexivity|].
  split; [repeat constructor|].
  split; [vm_compute; reflexivity|].
  split; [vm_compute; reflexivity|].
  split; [vm_compute; reflexivity|].
  split; [vm_compute; reflexivity|].
  split; [vm_compute; reflexivity|].
  split; [vm_compute; reflexivity|].
  split; [vm_compute; reflexivity|].
  split; [vm_compute; reflexivity|].
  split; [vm_compute; reflexivity|].
  split; [vm_compute; reflexivity|].
  split; [vm_compute; reflexivity|].
  intros Hnear.
  eassert (distance_le _ _) as Hle.
  { apply Hnear.
    - apply elem_of_take. exists 0. split; [vm_compute; reflexivity|lia].
    - apply list_elem_of_lookup. exists 0. vm_compute. reflexivity. }
  vm_compute in Hle. discriminate.
Qed.

Lemma empty_candidates_fallback_witness :
  nearby_hospitals (Some "key") (answering [place "" [] [VInt 0; VInt 1]])
    (query (Some "0") (Some "0") (Some "Dental") None)
  = {| result := Responded 200 (HospitalsBody [] true);
       outbound := [places_params "key" "dental" 0 0 20000] |}.
Proof.
  eapply (empty_candidates_fallback (L := libm) (B := builtins)).
  - vm_compute; reflexivity.
  - repeat constructor.
  - discriminate.
Defined.

(** ** The further properties at concrete requests *)

Lemma more_symptoms_no_lower_concern_witness :
  concern_rank
    (Triage.concern_level
       (Triage.assess
          {| Triage.symptoms := ["fever"; "cough"]; Triage.severity := "mild";
             Triage.duration := "day" |}))
  ≤ concern_rank
      (Triage.concern_level
         (Triage.assess
            {| Triage.symptoms := ["fever"; "sore throat"; "cough"];
               Triage.severity := "mild"; Triage.duration := "day" |})).
Proof.
  apply more_symptoms_no_lower_concern.
  apply sublist_skip, sublist_cons, sublist_skip, sublist_nil.
Defined.

Lemma assess_ignores_case_and_order_witness :
  Triage.assess
    {| Triage.symptoms := ["Chest Pain"; "cough"]; Triage.severity := "";
       Triage.duration := "" |}
  = Triage.assess
      {| Triage.symptoms := ["COUGH"; "chest pain"]; Triage.severity := "";
         Triage.duration := "" |}.
Proof.
  apply assess_ignores_case_and_order. vm_compute. apply perm_swap.
Defined.

Lemma recommended_departments_have_category_witness :
  is_Some (dept_map !! PyStr.lower "Pulmonology")
  ∧ geo_category "Pulmonology" = "healthcare".
Proof.
  apply (recommended_departments_have_category
           {| Triage.symptoms := ["cough"]; Triage.severity := "";
              Triage.duration := "" |} "Pulmonology").
  vm_compute. apply list_elem_of_here.
Defined.

(** A provider whose call fails. *)
Definition failing (details : string) : places_request → provider_reply :=
  λ _, ProviderError details.

Lemma outcomes_before_provider_data_witness :
  nearby_hospitals (Some "key") (failing "timed out")
    (query (Some "0") (Some "0") None None)
  = {| result :=
         Responded 500
           (ErrorBody "Failed to fetch hospitals from Geoapify"
              (Some "timed out"));
       outbound := [places_params "key" "" 0 0 20000] |}
  ∧ (nearby_hospitals None (failing "timed out")
       (query (Some "0") (Some "0") None (Some "far"))
     = {| result := Raised ValueError; outbound := [] |}
     ∧ parse_radius (Some "far") = Raise ValueError).
Proof.
  split.
  - apply (outcomes_before_provider_data (L := libm) (B := builtins)
             (Some "key") (failing "timed out")
             (query (Some "0") (Some "0") None None)).
    + vm_compute. apply list_elem_of_here.
    + reflexivity.
  - destruct (outcomes_before_provider_data (L := libm) (B := builtins)
                None (failing "timed out")
                (query (Some "0") (Some "0") None (Some "far")))
      as [Hearly _].
    destruct Hearly as [[H400 _]|[Hraise|[H500 _]]];
      [vm_compute; reflexivity|vm_compute in H400; discriminate
      |exact Hraise|vm_compute in H500; discriminate].
Defined.

Lemma unset_key_never_calls_provider_witness :
  let r := nearby_hospitals (Some "") (answering three_places)
             (query (Some "0") (Some "0") None None) in
  outbound r = []
  ∧ result r
    = Responded 500 (ErrorBody "Geoapify API key not configured" None).
Proof.
  destruct (unset_key_never_calls_provider (L := libm) (B := builtins)
              (Some "") (answering three_places)
              (query (Some "0") (Some "0") None None))
    as (Hout & _ & H500); [right; reflexivity|].
  split; [exact Hout|]. eapply H500; vm_compute; reflexivity.
Defined.

(** A latitude of 1000 and a negative radius go to the provider as they
    are. *)
Lemma outbound_request_shape_witness :
  ∃ k lat lng radius_m,
    Some "key" = Some k ∧ k ≠ ""
    ∧ parse_coord (Some "1000") = Ok lat
    ∧ parse_coord (Some "0") = Ok lng
    ∧ parse_radius (Some "-5") = Ok radius_m
    ∧ {| req_categories := "healthcare.dentist";
         req_circle := (0%float, 1000%float, (-5)%Z);
         req_limit := 100; req_apiKey := "key" |}
      = {| req_categories :=
             geo_category
               (requested_department
                  (query (Some "1000") (Some "0") (Some "Dental") (Some "-5")));
           req_circle := (lng, lat, radius_m);
           req_limit := 100;
           req_apiKey := k |}
    ∧ outbound
        (nearby_hospitals (Some "key") (answering [])
           (query (Some "1000") (Some "0") (Some "Dental") (Some "-5")))
      = [{| req_categories := "healthcare.dentist";
            req_circle := (0%float, 1000%float, (-5)%Z);
            req_limit := 100; req_apiKey := "key" |}].
Proof.
  apply (outbound_request_shape (L := libm) (B := builtins) (Some "key")
           (answering [])
           (query (Some "1000") (Some "0") (Some "Dental") (Some "-5"))).
  vm_compute. apply list_elem_of_here.
Defined.

Lemma no_department_lists_every_candidate_witness :
  ∃ hs,
    nearby_hospitals (Some "key") (answering three_places)
      (query (Some "0") (Some "0") (Some "   ") None)
    = {| result := Responded 200 (HospitalsBody hs false);
         outbound := [places_params "key" "" 0 0 20000] |}
    ∧ length hs = 3.
Proof.
  eassert (derive_records 0 0 0 three_places = Ok _) as Hsrc
    by (vm_compute; reflexivity).
  assert (fetch (Some "key") (answering three_places)
            (query (Some "0") (Some "0") (Some "   ") None)
          = Features 0 0 "" (places_params "key" "" 0 0 20000) three_places)
    as Hfetch by (vm_compute; reflexivity).
  destruct (no_department_lists_every_candidate (L := libm) (B := builtins)
              _ _ _ _ _ _ _ _ _ Hfetch Hsrc)
    as (hs & Hr & _ & _ & Hlen); [vm_compute; reflexivity|].
  exists hs. split; [exact Hr|]. rewrite Hlen. vm_compute. reflexivity.
Defined.

(** The triage recommends "Pulmonology" for a cough; the finder, asked for
    it, can only fall back. *)
Lemma unmatchable_department_falls_back_witness :
  Triage.recommended_departments
    (Triage.assess
       {| Triage.symptoms := ["cough"]; Triage.severity := "";
          Triage.duration := "" |}) = ["Pulmonology"]
  ∧ ∃ source hs,
      derive_records 0 0 0 three_places = Ok source
      ∧ nearby_hospitals (Some "key") (answering three_places)
          (query (Some "0") (Some "0") (Some "Pulmonology") None)
        = {| result := Responded 200 (HospitalsBody hs true);
             outbound := [places_params "key" "pulmonology" 0 0 20000] |}
      ∧ render (take 15 (sort_by_distance source)) = Ok hs.
Proof.
  split; [vm_compute; reflexivity|].
  eassert (derive_records 0 0 0 three_places = Ok _) as Hsrc
    by (vm_compute; reflexivity).
  assert (fetch (Some "key") (answering three_places)
            (query (Some "0") (Some "0") (Some "Pulmonology") None)
          = Features 0 0 "pulmonology"
              (places_params "key" "pulmonology" 0 0 20000) three_places)
    as Hfetch by (vm_compute; reflexivity).
  destruct (unmatchable_department_falls_back (L := libm) (B := builtins)
              _ _ _ _ _ _ _ _ _ Hfetch Hsrc) as (hs & Hr & Hhs);
    [vm_compute; reflexivity|].
  eexists _, hs. split; [exact Hsrc|]. split; [exact Hr|exact Hhs].
Defined.

Lemma response_size_witness :
  ∃ st hs fb,
    result (nearby_hospitals (Some "key") (answering three_places)
              (query (Some "0") (Some "0") (Some "Dental") None))
    = Responded st (HospitalsBody hs fb)
    ∧ length hs ≤ 3 ∧ (fb = true → length hs ≤ 15).
Proof.
  assert (fetch (Some "key") (answering three_places)
            (query (Some "0") (Some "0") (Some "Dental") None)
          = Features 0 0 "dental"
              (places_params "key" "dental" 0 0 20000) three_places)
    as Hfetch by (vm_compute; reflexivity).
  eassert (result (nearby_hospitals (Some "key") (answering three_places)
                     (query (Some "0") (Some "0") (Some "Dental") None))
           = Responded _ (HospitalsBody _ _)) as Hres
    by (vm_compute; reflexivity).
  eexists _, _, _. split; [exact Hres|].
  exact (response_size (L := libm) (B := builtins) _ _ _ _ _ _ _ _ _ _ _
           Hfetch Hres).
Defined.

Lemma response_entries_well_formed_witness :
  ∃ st v hs fb,
    result (nearby_hospitals (Some "key") (answering three_places)
              (query (Some "0") (Some "0") (Some "cardiology") None))
    = Responded st (HospitalsBody (v :: hs) fb)
    ∧ FacilityView.name v = "City Heart Center"
    ∧ FacilityView.specialties v = ["Cardiology"; "ENT"]
    ∧ FacilityView.name v ≠ "" ∧ FacilityView.address v ≠ ""
    ∧ FacilityView.phone v ≠ ""
    ∧ FacilityView.specialties v `sublist_of` all_specialties
    ∧ NoDup (FacilityView.specialties v)
    ∧ (FacilityView.has_specialties v = true
       ↔ FacilityView.specialties v ≠ []).
Proof.
  eassert (result (nearby_hospitals (Some "key") (answering three_places)
                     (query (Some "0") (Some "0") (Some "cardiology") None))
           = Responded _ (HospitalsBody (_ :: _) _)) as Hres
    by (vm_compute; reflexivity).
  eexists _, _, _, _. split; [exact Hres|].
  split; [reflexivity|]. split; [reflexivity|].
  exact (response_entries_well_formed (L := libm) (B := builtins) _ _ _ _ _ _ _
           Hres (list_elem_of_here _ _)).
Defined.

Lemma no_position_unknown_distance_witness :
  ∃ h v,
    derive_record 0 0 1 (place "City Heart Center" ["healthcare.clinic"] [])
    = Ok (Some h)
    ∧ Facility.distance_km h = None
    ∧ view h = Ok v ∧ FacilityView.distance v = "".
Proof.
  apply (no_position_unknown_distance (L := libm) (B := builtins)).
  - vm_compute. reflexivity.
  - vm_compute. exact I.
Defined.

(** A record without a known distance. *)
Definition unlocated_clinic : Facility.t :=
  {| Facility.id := "7"; Facility.name := "North Clinic";
     Facility.address := "Address not available";
     Facility.lat := VNone; Facility.lng := VNone;
     Facility.emergency := false; Facility.phone := "Not available";
     Facility.specialties := []; Facility.has_specialties := false;
     Facility.rating := 4.5; Facility.distance_km := None |}.

Lemma distance_text_empty_iff_unknown_witness :
  ∃ v,
    view unlocated_clinic = Ok v
    ∧ (FacilityView.distance v = ""
       ↔ Facility.distance_km unlocated_clinic = None)
    ∧ (Facility.distance_km unlocated_clinic = Some nan →
       FacilityView.distance v = (format_1f nan ++ " km")%string).
Proof.
  eassert (view unlocated_clinic = Ok _) as Hv by (vm_compute; reflexivity).
  eexists. split; [exact Hv|].
  exact (distance_text_empty_iff_unknown (B := builtins) _ _ Hv).
Defined.

(** A feature that the provider rated zero. *)
Definition unrated_place : feature :=
  {| feat_properties :=
       Some {| prop_name := Some "North Clinic"; prop_formatted := None;
               prop_address_line1 := None; prop_categories := None;
               prop_opening_hours := None; prop_place_id := None;
               prop_contact_phone := None; prop_rate := Some 0%float |};
     feat_geometry := None |}.

Lemma rating_defaulted_once_witness :
  ∃ h v,
    derive_record 0 0 0 unrated_place = Ok (Some h)
    ∧ view h = Ok v
    ∧ (Facility.rating h =? 0)%float = false
    ∧ FacilityView.rating v = round1 (Facility.rating h)
    ∧ Facility.rating h = 4.5%float.
Proof.
  eassert (derive_record 0 0 0 unrated_place = Ok (Some _)) as Hh
    by (vm_compute; reflexivity).
  match type of Hh with
  | _ = Ok (Some ?h) =>
      eassert (view h = Ok _) as Hv by (vm_compute; reflexivity)
  end.
  destruct (rating_defaulted_once (L := libm) (B := builtins) _ _ _ _ _ _ Hh Hv)
    as (Hnz & Hround & _ & Hdef).
  eexists _, _. split; [exact Hh|]. split; [exact Hv|].
  split; [exact Hnz|]. split; [exact Hround|].
  apply Hdef. right. exists 0%float. split; reflexivity.
Defined.

(** Three places, the second without a name. *)
Definition places_with_gap : list feature :=
  [place "North Clinic" [] [VInt 0; VInt 2];
   place "" [] [VInt 0; VInt 3];
   place "Riverside Emergency Care" [] [VInt 0; VInt 1]].

Lemma default_ids_distinct_witness :
  ∃ source,
    derive_records 0 0 0 places_with_gap = Ok source
    ∧ Facility.name <$> source = ["North Clinic"; "Riverside Emergency Care"]
    ∧ Facility.id <$> source = ["0"; "2"]
    ∧ NoDup (Facility.id <$> source)
    ∧ ∀ h, h ∈ source →
           ∃ j feat, places_with_gap !! j = Some feat
                     ∧ derive_record 0 0 j feat = Ok (Some h)
                     ∧ Facility.id h = pretty j.
Proof.
  eassert (derive_records 0 0 0 places_with_gap = Ok _) as Hsrc
    by (vm_compute; reflexivity).
  eexists. split; [exact Hsrc|]. split; [vm_compute; reflexivity|].
  split; [vm_compute; reflexivity|].
  apply (default_ids_distinct (L := libm) (B := builtins) _ _ _ _ Hsrc).
  repeat constructor.
Defined.

(** A place whose [place_id] is null. *)
Definition place_with_null_id (name : string) : feature :=
  {| feat_properties :=
       Some {| prop_name := Some name; prop_formatted := None;
               prop_address_line1 := None; prop_categories := None;
               prop_opening_hours := None; prop_place_id := Some None;
               prop_contact_phone := None; prop_rate := None |};
     feat_geometry := None |}.

(** The key has to be absent: a null [place_id] is not replaced by the
    index, and two such records share the id "None". *)
Example null_place_ids_collide :
  ∃ source,
    derive_records 0 0 0
      [place_with_null_id "North Clinic"; place_with_null_id "City Heart Center"]
    = Ok source
    ∧ Facility.id <$> source = ["None"; "None"].
Proof. eexists. split; vm_compute; reflexivity. Qed.

Lemma haversine_distance_bounded_witness :
  ∃ r,
    haversine_distance_km (VInt 0) (VInt 0) (VInt 1) (VInt 0) = Ok (Some r)
    ∧ (is_nan r = true ∨ (abs r <? 524288)%float = true).
Proof.
  eassert (haversine_distance_km (VInt 0) (VInt 0) (VInt 1) (VInt 0)
           = Ok (Some _)) as Hr by (vm_compute; reflexivity).
  eexists. split; [exact Hr|].
  exact (haversine_distance_bounded (L := libm) _ _ _ _ _ Hr).
Defined.

Lemma inferred_specialty_matches_witness :
  ∃ h,
    derive_record 0 0 1 (place "City Heart Center" ["healthcare.clinic"] [])
    = Ok (Some h)
    ∧ matches_department h "CARDIOLOGY" = true.
Proof.
  eassert (derive_record 0 0 1
             (place "City Heart Center" ["healthcare.clinic"] [])
           = Ok (Some _)) as Hh by (vm_compute; reflexivity).
  eexists. split; [exact Hh|].
  apply (inferred_specialty_matches (L := libm) (B := builtins) _ _ _ _ _
           "Cardiology" "CARDIOLOGY" Hh).
  - vm_compute. apply list_elem_of_here.
  - vm_compute. reflexivity.
Defined.

(** Three different places without coordinates, in no particular order. *)
Definition unlocated_places : list feature :=
  [place "North Clinic" [] []; place "City Heart Center" [] [];
   place "Riverside Emergency Care" [] [VNone; VInt 1]].

Lemma unknown_distances_keep_provider_order_witness :
  ∃ source,
    derive_records 0 0 0 unlocated_places = Ok source
    ∧ Facility.name <$> source
      = ["North Clinic"; "City Heart Center"; "Riverside Emergency Care"]
    ∧ Facility.name <$> sort_by_distance source
      = ["North Clinic"; "City Heart Center"; "Riverside Emergency Care"]
    ∧ sort_by_distance source = source.
Proof.
  eassert (derive_records 0 0 0 unlocated_places = Ok _) as Hsrc
    by (vm_compute; reflexivity).
  eexists. split; [exact Hsrc|]. split; [vm_compute; reflexivity|].
  split; [vm_compute; reflexivity|].
  apply unknown_distances_keep_provider_order. repeat constructor.
Defined.

Lemma infinite_latitude_all_unknown_witness :
  ∃ lat source,
    parse_coord (Some "inf") = Ok lat
    ∧ derive_records lat 0 0 three_places = Ok source
    ∧ Forall (λ h, Facility.distance_km h = None) source
    ∧ sort_by_distance source = source.
Proof.
  eassert (derive_records infinity 0 0 three_places = Ok _) as Hsrc
    by (vm_compute; reflexivity).
  eexists infinity, _. split; [vm_compute; reflexivity|].
  split; [exact Hsrc|].
  apply (infinite_latitude_all_unknown (L := libm) (B := builtins)
           infinity 0 0 three_places); [reflexivity|exact Hsrc].
Defined.
